(** * alch: date-range chunking and the Tushare data-source adapter

    A shallow embedding of [alch/utils/time.py],
    [alch/data/source/tushare.py] and [alch/log.py], with the properties
    of the chunking loop, the retry policy, the normalisation of provider
    rows and the set-up of loggers. *)

From Stdlib Require Import ZArith List Bool Lia String Ascii.
From Stdlib Require Import Floats QArith Qround.
From Stdlib Require Import Sorting.Sorted Sorting.Permutation.
Import ListNotations.
Open Scope Z_scope.

(** ** Dates and periods

    A [pd.Timestamp] is an instant: a signed 64-bit count of nanoseconds
    since 1970-01-01 00:00:00, between [pd.Timestamp.min] and
    [pd.Timestamp.max].  A date is the instant of its midnight; an instant
    that is not a midnight carries a time of day. *)

Definition Timestamp := Z.

Definition NS_PER_DAY : Z := 86400000000000.

(** [pd.Timestamp.min] and [pd.Timestamp.max]: [-(2^63 - 1)] and
    [2^63 - 1] nanoseconds, that is 1677-09-21 00:12:43.145224193 and
    2262-04-11 23:47:16.854775807. *)
Definition Timestamp_min : Timestamp := -9223372036854775807.
Definition Timestamp_max : Timestamp := 9223372036854775807.

Definition in_bounds (t : Z) : bool :=
  (Timestamp_min <=? t) && (t <=? Timestamp_max).

(** A calendar date, as its day ordinal: the number of days since
    1970-01-01. *)
Definition Date := Z.

(** The day ordinal of a date (year, month, day) of the Gregorian
    calendar. *)
Definition days_from_civil (y m d : Z) : Date :=
  let y' := if m <=? 2 then y - 1 else y in
  let era := y' / 400 in
  let yoe := y' - era * 400 in
  let doy := (153 * (if m <=? 2 then m + 9 else m - 3) + 2) / 5 + d - 1 in
  let doe := yoe * 365 + yoe / 4 - yoe / 100 + doy in
  era * 146097 + doe - 719468.

(** The instant at which a date begins, and the date and the time of day
    of an instant. *)
Definition midnight (day : Date) : Timestamp := day * NS_PER_DAY.

Definition day_of (t : Timestamp) : Date := t / NS_PER_DAY.

Definition time_of_day (t : Timestamp) : Z := t mod NS_PER_DAY.

(** [pd.Timestamp("y-m-d")] *)
Definition Timestamp_of (y m d : Z) : Timestamp :=
  midnight (days_from_civil y m d).

(** The [period] argument of [split_date_range]: a [pd.Timedelta], which is
    a count of nanoseconds (of either sign, and not necessarily a whole
    number of days), or a [pd.DateOffset] (such as the default
    [pd.offsets.MonthEnd()]), which maps an instant to an instant.  A
    [pd.Timedelta] is a signed 64-bit count too, with the same bounds as
    a [pd.Timestamp]: no larger one can be made. *)
Inductive Period : Type :=
| Timedelta (nanoseconds : Z)
| DateOffset (apply : Timestamp -> Timestamp).

(** [pd.Timedelta(days=d)] and [pd.Timedelta(hours=h)] *)
Definition Timedelta_days (d : Z) : Period := Timedelta (d * NS_PER_DAY).

Definition Timedelta_hours (h : Z) : Period := Timedelta (h * 3600000000000).

(** [t + period].  The sum is computed on 64-bit nanosecond counts: when
    the instant or the result lies outside the bounds of [pd.Timestamp],
    the addition raises [OutOfBoundsDatetime] ([None] here).  No sum is
    given for a [Timedelta] that cannot be made. *)
Definition add_period (t : Timestamp) (p : Period) : option Timestamp :=
  match p with
  | Timedelta nanoseconds =>
      if in_bounds t && in_bounds nanoseconds && in_bounds (t + nanoseconds)
      then Some (t + nanoseconds) else None
  | DateOffset apply =>
      if in_bounds t && in_bounds (apply t) then Some (apply t) else None
  end.
Arguments add_period : simpl never.

(** The date of a day ordinal, as (year, month, day). *)
Definition civil_of (day : Date) : Z * Z * Z :=
  let z := day + 719468 in
  let era := z / 146097 in
  let doe := z - era * 146097 in
  let yoe := (doe - doe / 1460 + doe / 36524 - doe / 146096) / 365 in
  let doy := doe - (365 * yoe + yoe / 4 - yoe / 100) in
  let mp := (5 * doy + 2) / 153 in
  let d := doy - (153 * mp + 2) / 5 + 1 in
  let m := if mp <? 10 then mp + 3 else mp - 9 in
  (if m <=? 2 then yoe + era * 400 + 1 else yoe + era * 400, m, d).

(** The last day of the month [k] months after the month of [day]. *)
Definition last_day_of_month (day : Date) (k : Z) : Date :=
  let '(y, m, _) := civil_of day in
  let n := y * 12 + (m - 1) + k + 1 in
  days_from_civil (n / 12) (n mod 12 + 1) 1 - 1.

(** [pd.offsets.MonthEnd()], the default period: an instant moves to the
    last day of its month, and an instant of the last day of a month to
    the last day of the next one; the time of day is kept. *)
Definition MonthEnd : Period :=
  DateOffset (fun t =>
                let day := day_of t in
                let target := if day <? last_day_of_month day 0
                              then last_day_of_month day 0
                              else last_day_of_month day 1 in
                midnight target + time_of_day t).

(** A period is non-negative when adding it never moves an instant
    backwards. *)
Definition nonneg_period (p : Period) : Prop :=
  forall t r, add_period t p = Some r -> t <= r.

(** ** How a computation ends *)

(** The exceptions the adapter can meet. *)
Inductive exn : Type :=
| AssertionError                 (* a failed [assert] *)
| AttributeError                 (* a method looked up on [None] *)
| ValueError (msg : string)
| OutOfBoundsDatetime            (* date arithmetic past the bounds *)
| ProviderError (info : string).  (* whatever a provider call raises *)

Inductive outcome (A : Type) : Type :=
| Returns (a : A)
| Raises (e : exn)
| Hangs.
Arguments Returns {A} a.
Arguments Raises {A} e.
Arguments Hangs {A}.

Module Time.

(** The [while current_date <= end_date] loop of [split_date_range].  Each
    of the two additions of the body can raise.  The loop need not
    terminate (a negative period can hold the cursor back), so it is run
    with a bound on the number of iterations: [Hangs] means the bound was
    reached with the loop condition still true. *)
Fixpoint split_loop (fuel : nat) (end_date : Timestamp) (period : Period)
         (current_date : Timestamp) (periods : list (Timestamp * Timestamp))
  : outcome (list (Timestamp * Timestamp)) :=
  match fuel with
  | O => Hangs
  | S fuel' =>
      if current_date <=? end_date then
        let period_start := current_date in
        match add_period period_start period with
        | None => Raises OutOfBoundsDatetime
        | Some shifted =>
            let period_end := Z.min end_date shifted in
            match add_period period_end (Timedelta_days 1) with
            | None => Raises OutOfBoundsDatetime
            | Some next =>
                split_loop fuel' end_date period next
                           (periods ++ [(period_start, period_end)])
            end
        end
      else Returns periods
  end.

Definition split_date_range (fuel : nat) (start_date end_date : Timestamp)
           (period : Period) : outcome (list (Timestamp * Timestamp)) :=
  split_loop fuel end_date period start_date [].

(** The number of iterations that suffices under a non-negative period:
    every iteration moves the cursor at least one day forward. *)
Definition enough_fuel (start_date end_date : Timestamp) : nat :=
  S (Z.to_nat ((end_date - start_date) / NS_PER_DAY + 1)).

End Time.

(** ** Effects: provider calls and sleeping *)

(** What a provider endpoint is asked.  The adapter hands dates over as
    texts ([date.strftime("%Y%m%d")], or the date followed by [09:00:00]
    and [17:00:00] for the intraday window); such a text shows the
    calendar date of the instant and nothing of its time of day, and is
    represented by that date. *)
Inductive request : Type :=
| ReqDaily (ts_code : string) (start_date end_date : Date)
| ReqProBar (ts_code : string) (start_date end_date : Date) (freq : string)
| ReqAdjFactor (ts_code : string) (start_date end_date : Date).

(** What the outside world sees of a run, in order. *)
Inductive event : Type :=
| Call (q : request)
| Sleep (seconds : Z).

Definition trace := list event.

(** A computation reads the events so far and extends them. *)
Definition M (A : Type) : Type := trace -> outcome A * trace.

Definition ret {A} (a : A) : M A := fun w => (Returns a, w).
Definition raise {A} (e : exn) : M A := fun w => (Raises e, w).
Definition hang {A} : M A := fun w => (Hangs, w).
Definition bind {A B} (m : M A) (k : A -> M B) : M B :=
  fun w =>
    match m w with
    | (Returns a, w') => k a w'
    | (Raises e, w') => (Raises e, w')
    | (Hangs, w') => (Hangs, w')
    end.

Notation "x <- m ;; k" := (bind m (fun x => k))
  (at level 61, m at next level, right associativity).
Notation "m ;;; k" := (bind m (fun _ => k))
  (at level 61, right associativity).

(** [time.sleep(seconds)] *)
Definition sleep (seconds : Z) : M unit :=
  fun w => (Returns tt, w ++ [Sleep seconds]).

(** [assert c] *)
Definition assert (c : bool) : M unit :=
  if c then ret tt else raise AssertionError.

(** Looking up a method on a value that may be [None]. *)
Definition getattr {A} (o : option A) : M A :=
  match o with
  | Some a => ret a
  | None => raise AttributeError
  end.

(** A list comprehension whose element expression has effects. *)
Fixpoint for_each {A B} (f : A -> M B) (l : list A) : M (list B) :=
  match l with
  | [] => ret []
  | x :: l' => y <- f x ;; ys <- for_each f l' ;; ret (y :: ys)
  end.

(** Modelled from the spec: the [retry(tries, delay)] decorator of the
    [retry] package, which is not part of the sources.  The wrapped call is
    attempted up to [tries] times; any exception leads to a pause of
    [delay] seconds and another attempt, and the exception of the last
    attempt is propagated.  [retry_after n] is the state with [n] attempts
    left after the current one. *)
Fixpoint retry_after {A} (retries : nat) (delay : Z) (f : M A) : M A :=
  fun w =>
    match f w with
    | (Raises e, w') =>
        match retries with
        | O => (Raises e, w')
        | S retries' => (sleep delay ;;; retry_after retries' delay f) w'
        end
    | r => r
    end.

Definition retry {A} (tries : positive) (delay : Z) (f : M A) : M A :=
  retry_after (Nat.pred (Pos.to_nat tries)) delay f.

(** ** Tables *)

(** A numeric cell of a provider table: the provider delivers integers or
    floats. *)
Inductive cell : Type :=
| CFloat (f : float)
| CInt (z : Z).

(** [astype(np.float64)]: an integer is rounded to the nearest float. *)
Definition astype_float64 (c : cell) : float :=
  match c with
  | CFloat f => f
  | CInt z => SF2Prim (binary_normalize prec emax z 0 false)
  end.

(** A row of [self._api.daily].  [trade_date] is the text of a date; it is
    represented by that date, and so is the instant [pd.to_datetime] makes
    of it, the midnight of that date. *)
Module DailyRow.
Record t : Type := mk {
  ts_code : string; trade_date : Date;
  open : cell; high : cell; low : cell; close : cell;
  vol : cell; amount : cell; pre_close : cell }.
End DailyRow.

(** A row of [tushare.pro_bar] at a minute frequency.  [trade_time] is a
    [YYYY-MM-DD HH:MM:SS] text, ordered as text the way the instants are;
    it is represented by the instant, in seconds since 1970-01-01. *)
Module MinuteRow.
Record t : Type := mk {
  ts_code : string; trade_date : Date; trade_time : Z;
  open : cell; high : cell; low : cell; close : cell;
  vol : cell; amount : cell; pre_close : cell }.
End MinuteRow.

(** A row of [self._api.adj_factor]. *)
Module FactorRow.
Record t : Type := mk {
  ts_code : string; trade_date : Date; adj_factor : cell }.
End FactorRow.

(** A row of the returned price table; [time] is absent from daily tables. *)
Module Bar.
Record t : Type := mk {
  symbol : string; date : Date; time : option Z;
  open : float; high : float; low : float; close : float;
  volume : float; amount : float; prev : float }.
End Bar.

(** A row of the returned adjustment-factor table. *)
Module Factor.
Record t : Type := mk {
  symbol : string; date : Date; adj_factor : float }.
End Factor.

Inductive DataFrame : Type :=
| Bars (rows : list Bar.t)
| Factors (rows : list Factor.t).

(** [data.sort_values(by=key)]: ascending by the key column.  (Rows with
    equal keys are kept in their order here; pandas does not promise it.) *)
Fixpoint insert_by {A} (key : A -> Z) (x : A) (l : list A) : list A :=
  match l with
  | [] => [x]
  | y :: l' => if key x <=? key y then x :: l else y :: insert_by key x l'
  end.

Fixpoint sort_values {A} (key : A -> Z) (l : list A) : list A :=
  match l with
  | [] => []
  | x :: l' => insert_by key x (sort_values key l')
  end.

(** [pd.concat(frames)]: the rows of the frames in order; an empty list of
    frames is refused. *)
Definition concat_frames {A} (frames : list (list A)) : M (list A) :=
  match frames with
  | [] => raise (ValueError "No objects to concatenate")
  | _ => ret (List.concat frames)
  end.

(** The provider: its three endpoints, asked for a code and a window of
    dates.  An endpoint's answer may depend on everything that happened
    before the call (so a call can fail now and succeed later). *)
Record DataApi : Type := {
  daily : trace -> string -> Date -> Date -> exn + list DailyRow.t;
  pro_bar : trace -> string -> Date -> Date -> string ->
            exn + list MinuteRow.t;
  adj_factor : trace -> string -> Date -> Date ->
               exn + list FactorRow.t }.

Definition answer {A} (r : exn + A) : outcome A :=
  match r with
  | inl e => Raises e
  | inr a => Returns a
  end.

(** ** The adapter *)

Module Tushare.

Section Adapter.

(** [self._api], and the value of [pd.Timestamp.now().floor("D")]. *)
Variable api : DataApi.
Variable today : Timestamp.

Definition convert_symbol (symbol : string) : string :=
  if prefix "6" symbol then (symbol ++ ".SH")%string
  else (symbol ++ ".SZ")%string.

(** [date.strftime("%Y%m%d")]: the text of the date of the instant. *)
Definition convert_date (date : Timestamp) : Date := day_of date.

Definition call_daily (ts_code : string) (s e : Date)
  : M (list DailyRow.t) :=
  fun w => (answer (daily api w ts_code s e), w ++ [Call (ReqDaily ts_code s e)]).

Definition call_pro_bar (ts_code : string) (s e : Date) (freq : string)
  : M (list MinuteRow.t) :=
  fun w => (answer (pro_bar api w ts_code s e freq),
            w ++ [Call (ReqProBar ts_code s e freq)]).

Definition call_adj_factor (ts_code : string) (s e : Date)
  : M (list FactorRow.t) :=
  fun w => (answer (adj_factor api w ts_code s e),
            w ++ [Call (ReqAdjFactor ts_code s e)]).

Definition normalize_daily (r : DailyRow.t) : Bar.t :=
  {| Bar.symbol := substring 0 6 (DailyRow.ts_code r);
     Bar.date := DailyRow.trade_date r;
     Bar.time := None;
     Bar.open := astype_float64 (DailyRow.open r);
     Bar.high := astype_float64 (DailyRow.high r);
     Bar.low := astype_float64 (DailyRow.low r);
     Bar.close := astype_float64 (DailyRow.close r);
     Bar.volume := (astype_float64 (DailyRow.vol r) * 100)%float;
     Bar.amount := (astype_float64 (DailyRow.amount r) * 1000)%float;
     Bar.prev := astype_float64 (DailyRow.pre_close r) |}.

Definition normalize_high_freq (r : MinuteRow.t) : Bar.t :=
  {| Bar.symbol := substring 0 6 (MinuteRow.ts_code r);
     Bar.date := MinuteRow.trade_date r;
     Bar.time := Some (MinuteRow.trade_time r);
     Bar.open := astype_float64 (MinuteRow.open r);
     Bar.high := astype_float64 (MinuteRow.high r);
     Bar.low := astype_float64 (MinuteRow.low r);
     Bar.close := astype_float64 (MinuteRow.close r);
     Bar.volume := astype_float64 (MinuteRow.vol r);
     Bar.amount := astype_float64 (MinuteRow.amount r);
     Bar.prev := astype_float64 (MinuteRow.pre_close r) |}.

Definition normalize_adjust_factor (r : FactorRow.t) : Factor.t :=
  {| Factor.symbol := substring 0 6 (FactorRow.ts_code r);
     Factor.date := FactorRow.trade_date r;
     Factor.adj_factor := astype_float64 (FactorRow.adj_factor r) |}.

(** The body of [fetch_historical_data_daily], and the method as decorated
    with [@retry(tries=5, delay=10)]. *)
Definition daily_attempt (symbol : string) (start_date end_date : Timestamp)
  : M (list Bar.t) :=
  data <- call_daily (convert_symbol symbol)
                     (convert_date start_date) (convert_date end_date) ;;
  let data := sort_values DailyRow.trade_date data in
  ret (map normalize_daily data).

Definition fetch_historical_data_daily (symbol : string)
           (start_date end_date : Timestamp) : M (list Bar.t) :=
  retry 5 10 (daily_attempt symbol start_date end_date).

(** [fetch_historical_data_high_freq]: the window runs from 09:00:00 on
    the date of [start_date] to 17:00:00 on the date of [end_date]. *)
Definition high_freq_attempt (symbol : string)
           (start_date end_date : Timestamp) (frequency : string)
  : M (list Bar.t) :=
  data <- call_pro_bar (convert_symbol symbol)
                       (day_of start_date) (day_of end_date) frequency ;;
  let data := sort_values MinuteRow.trade_time data in
  ret (map normalize_high_freq data).

Definition fetch_historical_data_high_freq (symbol : string)
           (start_date end_date : Timestamp) (frequency : string)
  : M (list Bar.t) :=
  retry 5 10 (high_freq_attempt symbol start_date end_date frequency).

(** [int(re.match(r"(\d+)min", frequency).group(1))]: the number written by
    the leading decimal digits. *)
Definition digit_value (c : ascii) : option Z :=
  let n := Z.of_N (N_of_ascii c) in
  if (48 <=? n) && (n <=? 57) then Some (n - 48) else None.

Fixpoint leading_number (acc : Z) (s : string) : Z :=
  match s with
  | String c s' =>
      match digit_value c with
      | Some d => leading_number (10 * acc + d) s'
      | None => acc
      end
  | EmptyString => acc
  end.

Definition num_minutes (frequency : string) : Z := leading_number 0 frequency.

(** [10000 // (240 // num_minutes)] *)
Definition max_days_per_iteration (frequency : string) : Z :=
  10000 / (240 / num_minutes frequency).

Definition is_minute_frequency (frequency : string) : bool :=
  existsb (String.eqb frequency) ["1min"; "5min"; "15min"; "30min"; "60min"]%string.

Definition is_none {A} (o : option A) : bool :=
  match o with Some _ => false | None => true end.

(** [pd.Timestamp("2010-01-01")] *)
Definition floor_2010 : Timestamp := Timestamp_of 2010 1 1.

Definition fetch_historical_data
           (symbol : option string) (start_date end_date : option Timestamp)
           (trade_date : option Timestamp) (frequency : option string)
           (fields : option (list string)) : M DataFrame :=
  match symbol with None => raise AssertionError | Some symbol =>
  match frequency with None => raise AssertionError | Some frequency =>
  assert (is_none fields) ;;;
  assert (is_none trade_date) ;;;
  let start_date := match start_date with None => floor_2010 | Some d => d end in
  let end_date := match end_date with None => today | Some d => d end in
  if String.eqb frequency "daily" then
    rows <- fetch_historical_data_daily symbol start_date end_date ;;
    ret (Bars rows)
  else if is_minute_frequency frequency then
    let max_days_per_iteration := max_days_per_iteration frequency in
    match Time.split_date_range (Time.enough_fuel start_date end_date)
            start_date end_date (Timedelta_days max_days_per_iteration) with
    | Returns periods =>
        frames <- for_each
                    (fun '(s, e) =>
                       fetch_historical_data_high_freq symbol s e frequency)
                    periods ;;
        rows <- concat_frames frames ;;
        ret (Bars rows)
    | Raises e => raise e
    | Hangs => hang
    end
  else raise (ValueError ("Unsupported frequency: " ++ frequency)%string)
  end end.

(** [fetch_adjust_factor], decorated with [@retry(tries=5, delay=10)]; it is
    handed the caller's optional arguments as they are. *)
Definition adjust_factor_attempt (symbol : option string)
           (start_date end_date : option Timestamp) : M DataFrame :=
  symbol <- getattr symbol ;;
  start_date <- getattr start_date ;;
  end_date <- getattr end_date ;;
  data <- call_adj_factor (convert_symbol symbol)
                          (convert_date start_date) (convert_date end_date) ;;
  let data := sort_values FactorRow.trade_date data in
  ret (Factors (map normalize_adjust_factor data)).

Definition fetch_adjust_factor
           (symbol : option string) (start_date end_date : option Timestamp)
           (trade_date : option Timestamp) (frequency : option string)
           (fields : option (list string)) : M DataFrame :=
  retry 5 10 (adjust_factor_attempt symbol start_date end_date).

Definition fetch (dataset : string)
           (symbol : option string) (start_date end_date : option Timestamp)
           (trade_date : option Timestamp) (frequency : option string)
           (fields : option (list string)) : M DataFrame :=
  if String.eqb dataset "history" || String.eqb dataset "ohlcv" then
    fetch_historical_data symbol start_date end_date trade_date frequency fields
  else if String.eqb dataset "adjust_factor" then
    fetch_adjust_factor symbol start_date end_date trade_date frequency fields
  else raise (ValueError ("unsupported dataset: " ++ dataset)%string).

End Adapter.

End Tushare.

(** ** Properties stated about the tables and the ranges *)

(** The first character of a symbol, and the suffix the convention gives
    it: [.SH] after a leading [6], [.SZ] otherwise. *)
Definition leading_char (s : string) : option ascii :=
  match s with
  | String c _ => Some c
  | EmptyString => None
  end.

Definition suffix_for (c : option ascii) : string :=
  match c with
  | Some c => if Ascii.eqb c "6" then ".SH" else ".SZ"
  | None => ".SZ"
  end.

(** The chunk length as the specification writes it: the floor of the
    bars allowed per call over the bars of one day, as rational numbers. *)
Definition spec_max_days (minutes : Z) : Z :=
  Qfloor (inject_Z 10000 / (inject_Z 240 / inject_Z minutes)).

(** The order of the rows of a price table: by [date], then by [time];
    and the key under which a row is stored.  Likewise for a table of
    adjustment factors, which has a date and no time. *)
Definition time_lt (a b : option Z) : Prop :=
  match a, b with
  | Some x, Some y => x < y
  | _, _ => False
  end.

Definition bar_lt (a b : Bar.t) : Prop :=
  Bar.date a < Bar.date b \/
  (Bar.date a = Bar.date b /\ time_lt (Bar.time a) (Bar.time b)).

Definition bar_key (b : Bar.t) : string * Date * option Z :=
  (Bar.symbol b, Bar.date b, Bar.time b).

Definition factor_lt (a b : Factor.t) : Prop :=
  Factor.date a < Factor.date b.

Definition factor_key (f : Factor.t) : string * Date :=
  (Factor.symbol f, Factor.date f).

(** What the adapter takes for granted of the provider: an intraday answer
    holds only bars of the days asked for, each dated by the day of its
    instant, no instant twice; a daily answer and an adjustment-factor
    answer hold no date twice. *)
Definition honest (api : DataApi) : Prop :=
  (forall w code s e freq data,
      pro_bar api w code s e freq = inr data ->
      NoDup (map MinuteRow.trade_time data) /\
      Forall (fun r => s <= MinuteRow.trade_date r <= e /\
                       MinuteRow.trade_date r = MinuteRow.trade_time r / 86400)
             data) /\
  (forall w code s e data,
      daily api w code s e = inr data ->
      NoDup (map DailyRow.trade_date data)) /\
  (forall w code s e data,
      adj_factor api w code s e = inr data ->
      NoDup (map FactorRow.trade_date data)).

(** *** Sample providers *)

Definition minute_row (date : Date) (second_of_day : Z) (vol amount : cell)
  : MinuteRow.t :=
  MinuteRow.mk "000001.SZ" date (date * 86400 + second_of_day)
               (CFloat 10) (CFloat 11) (CFloat 9) (CFloat 10.5)
               vol amount (CFloat 10).

Definition daily_row (date : Date) (vol amount : cell) : DailyRow.t :=
  DailyRow.mk "000001.SZ" date
              (CFloat 10) (CFloat 11) (CFloat 9) (CFloat 10.5)
              vol amount (CFloat 10).

(** A provider that is down. *)
Definition api_down : DataApi :=
  {| daily := fun _ _ _ _ => inl (ProviderError "timeout");
     pro_bar := fun _ _ _ _ _ => inl (ProviderError "timeout");
     adj_factor := fun _ _ _ _ => inl (ProviderError "timeout") |}.

(** A provider that fails until two calls have been made, then answers. *)
Definition api_recovering : DataApi :=
  let calls w := List.length (filter (fun ev => match ev with
                                               | Call _ => true
                                               | Sleep _ => false
                                               end) w) in
  {| daily := fun w _ s _ =>
                if (calls w <? 2)%nat then inl (ProviderError "busy")
                else inr [daily_row s (CInt 1) (CInt 1)];
     pro_bar := fun w _ s _ _ =>
                  if (calls w <? 2)%nat then inl (ProviderError "busy")
                  else inr [minute_row s 34200 (CInt 1) (CInt 1)];
     adj_factor := fun _ _ _ _ => inl (ProviderError "busy") |}.

(** A provider that serves windows starting on day 0 and refuses the
    others. *)
Definition api_flaky : DataApi :=
  {| daily := fun _ _ _ _ => inr [];
     pro_bar := fun _ _ s _ _ =>
                  if s =? 0 then inr [minute_row 0 34200 (CInt 1) (CInt 1)]
                  else inl (ProviderError "rate limit");
     adj_factor := fun _ _ _ _ => inr [] |}.

(** A provider whose intraday answer holds the first bar of the window's
    first day twice. *)
Definition api_duplicate : DataApi :=
  {| daily := fun _ _ _ _ => inr [];
     pro_bar := fun _ _ s _ _ =>
                  inr [minute_row s 34200 (CInt 1) (CInt 1);
                       minute_row s 34200 (CInt 1) (CInt 1)];
     adj_factor := fun _ _ _ _ => inr [] |}.

(** A well-behaved provider: one bar a day at 09:30, one daily row a day,
    for the first two days of the window. *)
Definition api_steady : DataApi :=
  {| daily := fun _ _ s e =>
                inr (if s <? e then [daily_row (s + 1) (CInt 1) (CInt 1);
                                     daily_row s (CInt 1) (CInt 1)]
                     else if s =? e then [daily_row s (CInt 1) (CInt 1)]
                     else []);
     pro_bar := fun _ _ s e _ =>
                  inr (if s <? e then
                         [minute_row (s + 1) 34200 (CInt 1) (CInt 1);
                          minute_row s 34200 (CInt 1) (CInt 1)]
                       else if s =? e then [minute_row s 34200 (CInt 1) (CInt 1)]
                       else []);
     adj_factor := fun _ _ _ _ => inr [] |}.

(** A provider of adjustment factors, latest first. *)
Definition factor_row (date : Date) (factor : cell) : FactorRow.t :=
  FactorRow.mk "600000.SH" date factor.

Definition api_factors : DataApi :=
  {| daily := fun _ _ _ _ => inr [];
     pro_bar := fun _ _ _ _ _ => inr [];
     adj_factor := fun _ _ s e =>
                     inr [factor_row e (CFloat 2); factor_row s (CInt 1)] |}.

(** The events of [k] attempts of the call [q] that failed and were
    followed by a pause of [delay] seconds. *)
Fixpoint failed_attempts (q : request) (delay : Z) (k : nat) : trace :=
  match k with
  | O => []
  | S k' => Call q :: Sleep delay :: failed_attempts q delay k'
  end.

(** [chain s rs e]: the ranges [rs] are those of a run of the loop from
    the cursor [s]: the first starts at [s], each next one starts one day
    after the previous one ends, every range starts no later than it ends
    and ends no later than [e], and one day after the last end is past
    [e]. *)
Fixpoint chain (s : Timestamp) (rs : list (Timestamp * Timestamp))
         (e : Timestamp) : Prop :=
  match rs with
  | [] => e < s
  | (a, b) :: rs' =>
      a = s /\ a <= b /\ b <= e /\ chain (b + NS_PER_DAY) rs' e
  end.

(** An instant that is a date: the midnight of some day.  A period of
    whole days takes dates to dates. *)
Definition is_midnight (t : Timestamp) : Prop := exists day, t = midnight day.

Definition whole_days (p : Period) : Prop :=
  forall t r, is_midnight t -> add_period t p = Some r -> is_midnight r.

(** The result of a loop that is handed ranges already emitted. *)
Definition with_emitted {A} (acc : list A) (o : outcome (list A))
  : outcome (list A) :=
  match o with
  | Returns rs => Returns (acc ++ rs)
  | Raises e => Raises e
  | Hangs => Hangs
  end.

(** ** Logging ([alch/log.py]) *)

Module Log.

(** A handler of the [logging] package, with the format it was given. *)
Inductive Handler : Type :=
| StreamHandler (stream : string) (formatter : option string)
| TimedRotatingFileHandler (filename : string) (when : string)
                           (formatter : option string).

(** What [get_module_logger] touches of a [logging.Logger]. *)
Record Logger : Type := mkLogger {
  level : Z; handlers : list Handler; propagate : bool }.

(** The loggers [logging] has created so far, by name.  A logger is an
    object shared by all who asked for its name: changing it is changing
    the entry of its name. *)
Definition registry := string -> option Logger.

Definition update (reg : registry) (name : string) (l : Logger) : registry :=
  fun n => if String.eqb n name then Some l else reg n.

(** What can go wrong while the log file is set up. *)
Inductive os_error : Type := OSError (path : string).

Definition LOGGING_FORMAT : string :=
  "[%(name)s] - %(asctime)s - %(levelname)s - %(message)s".

(** [logging.INFO] *)
Definition LOGGING_LEVEL : Z := 20.

(** [os.path.join] of two POSIX paths. *)
Definition ends_with_sep (s : string) : bool :=
  match String.length s with
  | O => false
  | S n => match String.get n s with
           | Some c => Ascii.eqb c "/"
           | None => false
           end
  end.

Definition join (a b : string) : string :=
  if prefix "/" b then b
  else if (String.eqb a "" || ends_with_sep a)%bool then (a ++ b)%string
  else (a ++ "/" ++ b)%string.

Section Module_logger.

(** [os.path.expanduser("~")], and whether the system lets a directory be
    made ([os.makedirs(..., exist_ok=True)]) and a file be opened for
    appending. *)
Variable home : string.
Variable can_make_dir : string -> bool.
Variable can_open : string -> bool.

Definition LOGGING_DIR : string := join (join home ".alch") "logs".

Definition get_console_handler : Handler :=
  StreamHandler "stdout" (Some LOGGING_FORMAT).

Definition get_file_handler (name : string) : os_error + Handler :=
  if can_make_dir LOGGING_DIR then
    let filepath := join LOGGING_DIR (name ++ ".log") in
    if can_open filepath then
      inr (TimedRotatingFileHandler filepath "midnight" (Some LOGGING_FORMAT))
    else inl (OSError filepath)
  else inl (OSError LOGGING_DIR).

(** [logging.getLogger(name)], for a name other than the root's: the
    logger of that name, made on first use with level [NOTSET], no handler
    and propagation on. *)
Definition getLogger (name : string) (reg : registry) : Logger :=
  match reg name with
  | Some l => l
  | None => mkLogger 0 [] true
  end.

Definition setLevel (lv : Z) (l : Logger) : Logger :=
  mkLogger lv (handlers l) (propagate l).

(** [addHandler] appends a handler object that is not yet in the list; the
    handlers built here are new objects every time. *)
Definition addHandler (h : Handler) (l : Logger) : Logger :=
  mkLogger (level l) (handlers l ++ [h]) (propagate l).

Definition set_propagate (b : bool) (l : Logger) : Logger :=
  mkLogger (level l) (handlers l) b.

Definition get_module_logger (name : string) (lv : Z) (reg : registry)
  : (os_error + Logger) * registry :=
  let logger := getLogger name reg in
  let logger := setLevel lv logger in
  let logger := addHandler get_console_handler logger in
  match get_file_handler name with
  | inl e => (inl e, update reg name logger)
  | inr h =>
      let logger := addHandler h logger in
      let logger := set_propagate false logger in
      (inr logger, update reg name logger)
  end.

(** [n] calls for the same name, one after the other. *)
Fixpoint get_module_logger_times (n : nat) (name : string) (lv : Z)
         (reg : registry) : registry :=
  match n with
  | O => reg
  | S n' =>
      get_module_logger_times n' name lv (snd (get_module_logger name lv reg))
  end.

End Module_logger.

End Log.

(** The provider calls of a run, and the seconds it spent asleep. *)
Definition is_call (ev : event) : bool :=
  match ev with
  | Call _ => true
  | Sleep _ => false
  end.

Definition calls (t : trace) : nat := List.length (filter is_call t).

Fixpoint slept (t : trace) : Z :=
  match t with
  | [] => 0
  | Call _ :: t' => slept t'
  | Sleep seconds :: t' => seconds + slept t'
  end.

(** Past the assertions of [fetch_historical_data], for a call that gives
    a symbol and a frequency and neither [fields] nor [trade_date]. *)
Ltac enter_history :=
  unfold Tushare.fetch_historical_data;
  cbn [Tushare.is_none assert]; unfold bind at 1 2; cbn [ret].

Ltac enter_history_in H :=
  unfold Tushare.fetch_historical_data in H;
  cbn [Tushare.is_none assert] in H; unfold bind at 1 2 in H; cbn [ret] in H.

(** ** The chunking loop *)

Section SplitLoop.

Import Time.

Lemma NS_PER_DAY_pos : 0 < NS_PER_DAY.
Proof. reflexivity. Qed.

Lemma in_bounds_spec t :
  in_bounds t = true <-> Timestamp_min <= t <= Timestamp_max.
Proof.
  unfold in_bounds. rewrite andb_true_iff, !Z.leb_le. tauto.
Qed.

(** An addition that does not raise: the instant, the period and the sum
    are within the bounds. *)
Lemma add_period_Some t p r :
  add_period t p = Some r <->
  in_bounds t = true /\ in_bounds r = true /\
  match p with
  | Timedelta nanoseconds =>
      in_bounds nanoseconds = true /\ r = t + nanoseconds
  | DateOffset apply => r = apply t
  end.
Proof.
  unfold add_period. destruct p as [ns|f]; split.
  - destruct (in_bounds t); [|discriminate].
    destruct (in_bounds ns); [|discriminate].
    destruct (in_bounds (t + ns)) eqn:E; [|discriminate].
    intros [= <-]. auto.
  - intros (-> & Hr & -> & ->). now rewrite Hr.
  - destruct (in_bounds t); [|discriminate].
    destruct (in_bounds (f t)) eqn:E; [|discriminate].
    intros [= <-]. auto.
  - intros (-> & Hr & ->). now rewrite Hr.
Qed.

Lemma add_days t d r :
  add_period t (Timedelta_days d) = Some r <->
  in_bounds t = true /\ in_bounds r = true /\
  in_bounds (d * NS_PER_DAY) = true /\ r = t + d * NS_PER_DAY.
Proof. apply add_period_Some. Qed.

Lemma add_one_day t r :
  add_period t (Timedelta_days 1) = Some r <->
  in_bounds t = true /\ in_bounds r = true /\ r = t + NS_PER_DAY.
Proof.
  rewrite add_days, Z.mul_1_l.
  assert (in_bounds NS_PER_DAY = true) by reflexivity. tauto.
Qed.

Lemma split_loop_acc fuel end_date period cur acc :
  split_loop fuel end_date period cur acc =
  with_emitted acc (split_loop fuel end_date period cur []).
Proof.
  revert cur acc.
  induction fuel as [|fuel IH]; intros cur acc; simpl; [reflexivity|].
  destruct (cur <=? end_date); simpl; [|now rewrite app_nil_r].
  destruct (add_period cur period) as [shifted|]; [|reflexivity].
  destruct (add_period (Z.min end_date shifted) _) as [next|]; [|reflexivity].
  rewrite (IH _ (acc ++ _)), (IH _ [_]).
  destruct (split_loop fuel end_date period next []); simpl; [|reflexivity..].
  now rewrite <- app_assoc.
Qed.

(** One iteration whose two additions succeed: the emitted range ends at
    [min(end_date, current_date + period)] and the cursor moves to one day
    after that end. *)
Lemma split_loop_step fuel end_date period cur acc shifted :
  cur <= end_date ->
  add_period cur period = Some shifted ->
  in_bounds (Z.min end_date shifted + NS_PER_DAY) = true ->
  in_bounds end_date = true ->
  split_loop (S fuel) end_date period cur acc =
  split_loop fuel end_date period (Z.min end_date shifted + NS_PER_DAY)
             (acc ++ [(cur, Z.min end_date shifted)]).
Proof.
  intros Hc Hs Hn He. simpl. apply Z.leb_le in Hc. rewrite Hc, Hs.
  assert (E : add_period (Z.min end_date shifted) (Timedelta_days 1)
              = Some (Z.min end_date shifted + NS_PER_DAY)).
  { apply add_one_day. split; [|now split].
    apply add_period_Some in Hs. destruct Hs as (_ & Hs & _).
    destruct (Z.min_spec end_date shifted) as [[_ ->]|[_ ->]]; assumption. }
  now rewrite E.
Qed.

(** An iteration whose first addition is out of bounds raises. *)
Lemma split_loop_raises fuel end_date period cur acc :
  cur <= end_date ->
  add_period cur period = None ->
  split_loop (S fuel) end_date period cur acc = Raises OutOfBoundsDatetime.
Proof.
  intros Hc Hs. simpl. apply Z.leb_le in Hc. now rewrite Hc, Hs.
Qed.

(** With [start > end] the loop body never runs. *)
Lemma split_loop_empty fuel end_date period cur acc :
  end_date < cur -> split_loop (S fuel) end_date period cur acc = Returns acc.
Proof.
  intros H. simpl. destruct (Z.leb_spec cur end_date); [lia|reflexivity].
Qed.

(** A run that ended ends the same way under every larger bound. *)
Lemma split_loop_more_fuel fuel fuel' end_date period cur acc :
  split_loop fuel end_date period cur acc <> Hangs ->
  (fuel <= fuel')%nat ->
  split_loop fuel' end_date period cur acc =
  split_loop fuel end_date period cur acc.
Proof.
  revert fuel' cur acc.
  induction fuel as [|fuel IH]; intros fuel' cur acc; simpl; [congruence|].
  intros H Hf. destruct fuel' as [|fuel']; [lia|]. simpl.
  destruct (cur <=? end_date); [|reflexivity].
  destruct (add_period cur period) as [shifted|]; [|reflexivity].
  destruct (add_period (Z.min end_date shifted) _) as [next|]; [|reflexivity].
  apply IH; [exact H|lia].
Qed.

(** The iterations left: a cursor that moved a day or more forward leaves
    one iteration less. *)
Lemma fuel_step cur next end_date fuel :
  cur <= end_date -> cur + NS_PER_DAY <= next ->
  (Z.to_nat ((end_date - cur) / NS_PER_DAY + 1) < S fuel)%nat ->
  (Z.to_nat ((end_date - next) / NS_PER_DAY + 1) < fuel)%nat.
Proof.
  intros Hc Hn Hf. pose proof NS_PER_DAY_pos as HD.
  assert (H1 : (end_date - next) / NS_PER_DAY
               <= (end_date - cur - NS_PER_DAY) / NS_PER_DAY)
    by (apply Z.div_le_mono; lia).
  replace (end_date - cur - NS_PER_DAY)
    with (end_date - cur + (-1) * NS_PER_DAY) in H1 by lia.
  rewrite Z.div_add in H1 by lia.
  assert (H2 : 0 <= (end_date - cur) / NS_PER_DAY)
    by (apply Z.div_pos; lia).
  lia.
Qed.

(** The loop under a period that goes forward, within the bounds, on the
    cursors it meets ([reach] holds of them): it returns the ranges of a
    chain, each ending at [min(end_date, its start + period)]. *)
Lemma split_loop_chain (reach : Timestamp -> Prop) period s end_date :
  (forall t, reach t -> s <= t <= end_date ->
             exists r, add_period t period = Some r /\ t <= r /\
                       reach (Z.min end_date r + NS_PER_DAY)) ->
  Timestamp_min <= s -> end_date + NS_PER_DAY <= Timestamp_max ->
  forall fuel cur,
    reach cur -> s <= cur ->
    (Z.to_nat ((end_date - cur) / NS_PER_DAY + 1) < fuel)%nat ->
    exists rs,
      split_loop fuel end_date period cur [] = Returns rs /\
      chain cur rs end_date /\
      Forall (fun x => exists r, add_period (fst x) period = Some r /\
                                 snd x = Z.min end_date r) rs.
Proof.
  intros Hfw Hlo Hhi. pose proof NS_PER_DAY_pos as HD.
  induction fuel as [|fuel IH]; intros cur Hreach Hs Hf; [lia|].
  destruct (Z.leb_spec cur end_date) as [Hle|Hgt].
  - destruct (Hfw cur Hreach) as (r & Hr & Hcr & Hnext); [lia|].
    rewrite (split_loop_step _ _ _ _ _ r Hle Hr);
      [|apply in_bounds_spec; lia|apply in_bounds_spec; lia].
    destruct (IH (Z.min end_date r + NS_PER_DAY)) as (rs & Hrs & Hc & Hall);
      [exact Hnext|lia|apply (fuel_step cur); [lia|lia|exact Hf]|].
    exists ((cur, Z.min end_date r) :: rs). split; [|split].
    + rewrite split_loop_acc, Hrs. reflexivity.
    + simpl. repeat split; try lia. exact Hc.
    + constructor; [|exact Hall]. now exists r.
  - exists []. rewrite split_loop_empty by lia. simpl. auto.
Qed.

(** Under a non-negative period the loop stops: it returns or raises. *)
Lemma split_loop_stops period end_date :
  nonneg_period period ->
  forall fuel cur acc,
    (Z.to_nat ((end_date - cur) / NS_PER_DAY + 1) < fuel)%nat ->
    split_loop fuel end_date period cur acc <> Hangs.
Proof.
  intros Hp. pose proof NS_PER_DAY_pos as HD.
  induction fuel as [|fuel IH]; intros cur acc Hf; [lia|].
  simpl. destruct (Z.leb_spec cur end_date) as [Hle|Hgt]; [|discriminate].
  destruct (add_period cur period) as [shifted|] eqn:Hs; [|discriminate].
  destruct (add_period (Z.min end_date shifted) _) as [next|] eqn:Hn;
    [|discriminate].
  apply IH. apply (fuel_step cur); [lia| |exact Hf].
  apply add_one_day in Hn. destruct Hn as (_ & _ & ->).
  specialize (Hp _ _ Hs). lia.
Qed.

(** A [Timedelta] of minus one day holds the cursor where it is: the
    range ends a day before its start and the next one starts a day after
    that end.  The loop condition stays true for ever. *)
Lemma split_loop_diverges end_date fuel :
  forall cur acc,
    cur <= end_date ->
    Timestamp_min + NS_PER_DAY <= cur -> end_date <= Timestamp_max ->
    split_loop fuel end_date (Timedelta_days (-1)) cur acc = Hangs.
Proof.
  pose proof NS_PER_DAY_pos as HD.
  induction fuel as [|fuel IH]; intros cur acc Hc Hlo Hhi; [reflexivity|].
  assert (Hs : add_period cur (Timedelta_days (-1)) = Some (cur - NS_PER_DAY)).
  { apply add_days. rewrite !in_bounds_spec.
    unfold Timestamp_min, Timestamp_max, NS_PER_DAY in *. lia. }
  rewrite (split_loop_step _ _ _ _ _ _ Hc Hs).
  - replace (Z.min end_date (cur - NS_PER_DAY) + NS_PER_DAY) with cur by lia.
    now apply IH.
  - apply in_bounds_spec. lia.
  - apply in_bounds_spec. lia.
Qed.

(** Consequences of a chain, in terms of the list alone. *)
Lemma chain_In s rs e a b :
  chain s rs e -> In (a, b) rs -> s <= a /\ a <= b /\ b <= e.
Proof.
  pose proof NS_PER_DAY_pos as HD.
  revert s. induction rs as [|[c d] rs IH]; intros s; simpl; [tauto|].
  intros (-> & Hcd & Hde & Ht) [[= -> ->]|Hin]; [lia|].
  specialize (IH _ Ht Hin). lia.
Qed.

Lemma chain_nonempty s rs e : chain s rs e -> s <= e -> rs <> [].
Proof. destruct rs; simpl; [lia|discriminate]. Qed.

Lemma chain_first s rs e :
  chain s rs e -> s <= e -> exists b rest, rs = (s, b) :: rest.
Proof.
  destruct rs as [|[a b] rs]; simpl; [lia|]. intros (-> & _) _. eauto.
Qed.

(** The last range of a chain ends less than a day before the end of the
    span. *)
Lemma chain_last s rs e :
  chain s rs e -> rs <> [] ->
  exists pre a b, rs = pre ++ [(a, b)] /\ b <= e < b + NS_PER_DAY.
Proof.
  revert s. induction rs as [|[c d] rs IH]; intros s; simpl; [congruence|].
  intros (-> & Hcd & Hde & Ht) _.
  destruct rs as [|r rs].
  - simpl in Ht. exists [], s, d. simpl. split; [reflexivity|lia].
  - destruct (IH _ Ht) as (pre & a & b & E & Hb); [congruence|].
    exists ((s, d) :: pre), a, b. simpl. now rewrite E.
Qed.

Lemma chain_adjacent s rs e i a b c d :
  chain s rs e ->
  nth_error rs i = Some (a, b) -> nth_error rs (S i) = Some (c, d) ->
  c = b + NS_PER_DAY.
Proof.
  revert s i. induction rs as [|[x y] rs IH]; intros s i; [destruct i; discriminate|].
  simpl. intros (-> & Hxy & Hye & Ht). destruct i as [|i]; simpl.
  - intros [= -> ->]. destruct rs as [|[u v] rs]; [discriminate|].
    simpl. intros [= -> ->]. simpl in Ht. lia.
  - intros H1 H2. eapply IH; eauto.
Qed.

Lemma chain_ordered s rs e i j a b c d :
  chain s rs e -> (i < j)%nat ->
  nth_error rs i = Some (a, b) -> nth_error rs j = Some (c, d) ->
  b + NS_PER_DAY <= c.
Proof.
  revert s i j. induction rs as [|[x y] rs IH]; intros s i j; [destruct i; discriminate|].
  simpl. intros (-> & Hxy & Hye & Ht) Hij. destruct j as [|j]; [lia|].
  destruct i as [|i]; simpl.
  - intros [= -> ->] Hj. apply nth_error_In in Hj.
    pose proof (chain_In _ _ _ _ _ Ht Hj). lia.
  - intros H1 H2. eapply (IH _ i j); eauto. lia.
Qed.

(** Dates: midnights are a whole number of days apart. *)
Lemma midnight_le a b : midnight a <= midnight b <-> a <= b.
Proof.
  unfold midnight. pose proof NS_PER_DAY_pos as HD. split; intros H.
  - apply (Z.mul_le_mono_pos_r _ _ NS_PER_DAY); assumption.
  - apply Z.mul_le_mono_nonneg_r; lia.
Qed.

Lemma midnight_lt a b : midnight a < midnight b <-> a < b.
Proof.
  unfold midnight. pose proof NS_PER_DAY_pos as HD.
  symmetry. apply Z.mul_lt_mono_pos_r. exact HD.
Qed.

Lemma midnight_next a : midnight a + NS_PER_DAY = midnight (a + 1).
Proof. unfold midnight. lia. Qed.

Lemma day_of_midnight a : day_of (midnight a) = a.
Proof. unfold day_of, midnight. apply Z.div_mul. discriminate. Qed.

Lemma day_of_next t : day_of (t + NS_PER_DAY) = day_of t + 1.
Proof.
  unfold day_of. replace (t + NS_PER_DAY) with (t + 1 * NS_PER_DAY) by lia.
  apply Z.div_add. discriminate.
Qed.

Lemma day_of_le a b : a <= b -> day_of a <= day_of b.
Proof. intros H. apply Z.div_le_mono; [reflexivity|exact H]. Qed.

Lemma is_midnight_min a b :
  is_midnight a -> is_midnight b -> is_midnight (Z.min a b).
Proof.
  intros Ha Hb. destruct (Z.min_spec a b) as [[_ ->]|[_ ->]]; assumption.
Qed.

Lemma is_midnight_next a : is_midnight a -> is_midnight (a + NS_PER_DAY).
Proof. intros (k & ->). exists (k + 1). apply midnight_next. Qed.

(** A [Timedelta] of whole days takes dates to dates. *)
Lemma whole_days_Timedelta_days d : whole_days (Timedelta_days d).
Proof.
  intros t r (k & ->) H. apply add_days in H. destruct H as (_ & _ & _ & ->).
  exists (k + d). unfold midnight. lia.
Qed.

(** On dates, with a period of whole days, every range of the chain
    starts and ends on a date. *)
Lemma chain_midnights period s rs e :
  whole_days period -> is_midnight e ->
  chain s rs e -> is_midnight s ->
  Forall (fun x => exists r, add_period (fst x) period = Some r /\
                             snd x = Z.min e r) rs ->
  Forall (fun x => is_midnight (fst x) /\ is_midnight (snd x)) rs.
Proof.
  intros Hw He. revert s.
  induction rs as [|[a b] rs IH]; intros s; [constructor|].
  simpl. intros (-> & Hab & Hbe & Hc) Hs Hall.
  inversion Hall as [|? ? (r & Hr & Hb) Hall']; subst. simpl in Hr, Hb.
  subst b.
  assert (Hm : is_midnight (Z.min e r))
    by (apply is_midnight_min; [exact He|exact (Hw _ _ Hs Hr)]).
  constructor; [split; assumption|].
  apply (IH _ Hc); [now apply is_midnight_next|exact Hall'].
Qed.

(** The last range of a chain of dates ends at the end of the span. *)
Lemma chain_last_midnight s rs e :
  chain s rs e -> rs <> [] -> is_midnight e ->
  Forall (fun x => is_midnight (fst x) /\ is_midnight (snd x)) rs ->
  exists pre a, rs = pre ++ [(a, e)].
Proof.
  intros Hc Hne (ke & ->) Hall.
  destruct (chain_last _ _ _ Hc Hne) as (pre & a & b & -> & Hb).
  exists pre, a. do 3 f_equal.
  apply Forall_app in Hall. destruct Hall as (_ & Hall).
  inversion Hall as [|? ? (_ & (kb & Eb)) _]; subst. simpl in Eb. subst b.
  rewrite midnight_next, midnight_le, midnight_lt in Hb.
  f_equal. lia.
Qed.

(** The ranges of a chain of dates hold every date of the span, and
    nothing else. *)
Lemma chain_cover s rs e t :
  chain s rs e ->
  Forall (fun x => is_midnight (fst x) /\ is_midnight (snd x)) rs ->
  is_midnight t ->
  s <= t <= e <-> exists a b, In (a, b) rs /\ a <= t <= b.
Proof.
  intros Hc Hall (k & ->). revert s Hc Hall.
  induction rs as [|[x y] rs IH]; intros s; simpl.
  - intros Hlt _. split; [lia|]. intros (a & b & [] & _).
  - intros (-> & Hxy & Hye & Ht) Hall.
    inversion Hall as [|? ? (_ & (ky & Ey)) Hall']; subst. simpl in Ey.
    subst y. split.
    + intros H. destruct (Z_le_gt_dec k ky) as [Hty|Hty].
      * exists s, (midnight ky). split; [now left|].
        split; [lia|now apply midnight_le].
      * destruct (proj1 (IH _ Ht Hall')) as (a & b & Hin & Hab).
        { rewrite midnight_next. split; [apply midnight_le; lia|lia]. }
        exists a, b. split; [now right|lia].
    + intros (a & b & [[= <- <-]|Hin] & Hab); [lia|].
      pose proof (chain_In _ _ _ _ _ Ht Hin).
      pose proof NS_PER_DAY_pos. lia.
Qed.

(** A run that returns, under a non-negative period, returns a chain. *)
Lemma split_loop_returns period end_date :
  nonneg_period period ->
  forall fuel cur rs,
    split_loop fuel end_date period cur [] = Returns rs ->
    chain cur rs end_date /\
    Forall (fun x => exists r, add_period (fst x) period = Some r /\
                               snd x = Z.min end_date r) rs.
Proof.
  intros Hp. induction fuel as [|fuel IH]; intros cur rs; simpl; [discriminate|].
  destruct (Z.leb_spec cur end_date) as [Hle|Hgt].
  - destruct (add_period cur period) as [r|] eqn:Hr; [|discriminate].
    destruct (add_period (Z.min end_date r) _) as [next|] eqn:Hn;
      [|discriminate].
    rewrite split_loop_acc.
    destruct (split_loop fuel end_date period next []) as [rs'| |] eqn:E;
      try discriminate.
    simpl. intros [= <-]. destruct (IH _ _ E) as (Hc & Hall).
    apply add_one_day in Hn. destruct Hn as (_ & _ & ->).
    pose proof (Hp _ _ Hr). split.
    + simpl. repeat split; try lia. exact Hc.
    + constructor; [|exact Hall]. exists r. auto.
  - intros [= <-]. simpl. split; [lia|constructor].
Qed.

(** From a date, with a period of whole days, the ranges of a chain hold
    every day of the span, whatever the time of day of its end. *)
Lemma chain_cover_days d e rs :
  forall s,
    chain s rs e ->
    Forall (fun x => exists r, add_period (fst x) (Timedelta_days d) = Some r /\
                               snd x = Z.min e r) rs ->
    is_midnight s \/ s = e + NS_PER_DAY ->
    forall day, day_of s <= day <= day_of e ->
                exists a b, In (a, b) rs /\ day_of a <= day <= day_of b.
Proof.
  pose proof NS_PER_DAY_pos as HD.
  induction rs as [|[a b] rs IH]; intros s Hc Hall Hs day Hday.
  - simpl in Hc. exfalso. destruct Hs as [(k & ->)| ->].
    + rewrite day_of_midnight in Hday.
      assert (day_of e < k); [|lia].
      apply Z.div_lt_upper_bound; [exact HD|]. unfold midnight in Hc. lia.
    + rewrite day_of_next in Hday. lia.
  - simpl in Hc. destruct Hc as (-> & Hab & Hbe & Hc).
    inversion Hall as [|? ? (r & Hr & Hb) Hall']; subst. simpl in Hr, Hb.
    destruct (Z_le_gt_dec day (day_of b)) as [Hle|Hgt].
    + exists s, b. split; [now left|lia].
    + destruct (IH (b + NS_PER_DAY) Hc Hall') with (day := day)
        as (a' & b' & Hin & Hd).
      * destruct Hs as [Hs| ->]; [|lia].
        destruct (Z.min_spec e r) as [[_ E]|[_ E]]; rewrite E in Hb; subst b.
        -- now right.
        -- left. apply is_midnight_next.
           exact (whole_days_Timedelta_days d _ _ Hs Hr).
      * rewrite day_of_next. lia.
      * exists a', b'. split; [now right|exact Hd].
Qed.

End SplitLoop.

(** ** The ranges of [split_date_range] *)

Section SplitDateRange.

Import Time.

Example split_by_three_days :
  split_date_range 10 (midnight 0) (midnight 9) (Timedelta_days 3)
  = Returns [(midnight 0, midnight 3); (midnight 4, midnight 7);
             (midnight 8, midnight 9)].
Proof. reflexivity. Qed.

Example civil_of_leap_day : civil_of (days_from_civil 2024 2 29) = (2024, 2, 29).
Proof. reflexivity. Qed.

Example split_by_month_end :
  split_date_range 10 (Timestamp_of 2023 12 15) (Timestamp_of 2024 3 10) MonthEnd
  = Returns [(Timestamp_of 2023 12 15, Timestamp_of 2023 12 31);
             (Timestamp_of 2024 1 1, Timestamp_of 2024 1 31);
             (Timestamp_of 2024 2 1, Timestamp_of 2024 2 29);
             (Timestamp_of 2024 3 1, Timestamp_of 2024 3 10)].
Proof. reflexivity. Qed.

Example month_end_of_month_end :
  add_period (Timestamp_of 2024 1 31) MonthEnd = Some (Timestamp_of 2024 2 29).
Proof. reflexivity. Qed.

Example last_date_within_bounds :
  in_bounds (Timestamp_of 2262 4 11) = true /\
  in_bounds (Timestamp_of 2262 4 12) = false /\
  in_bounds (Timestamp_of 1677 9 22) = true /\
  in_bounds (Timestamp_of 1677 9 21) = false.
Proof. repeat split. Qed.

Lemma nonneg_Timedelta nanoseconds :
  0 <= nanoseconds -> nonneg_period (Timedelta nanoseconds).
Proof.
  intros Hn t r H. apply add_period_Some in H.
  destruct H as (_ & _ & _ & ->). lia.
Qed.

Lemma nonneg_Timedelta_days d : 0 <= d -> nonneg_period (Timedelta_days d).
Proof.
  intros Hd. apply nonneg_Timedelta. pose proof NS_PER_DAY_pos. nia.
Qed.

(** Dates [start <= end] and a non-negative period for which no tiling is
    returned.  Near the upper bound of [pd.Timestamp] the sum
    [period_start + period] is computed before the minimum is taken, and
    raises; and with a period of twelve hours the single range ends at
    noon of the first date, not at [end]. *)
Lemma split_date_range_no_tiling :
  (Timestamp_of 2262 4 1 <= Timestamp_of 2262 4 11 /\
   nonneg_period (Timedelta_days 208) /\
   forall fuel,
     split_date_range (S fuel) (Timestamp_of 2262 4 1) (Timestamp_of 2262 4 11)
                      (Timedelta_days 208)
     = Raises OutOfBoundsDatetime) /\
  (Timestamp_of 2024 1 1 <= Timestamp_of 2024 1 2 /\
   nonneg_period (Timedelta_hours 12) /\
   forall fuel,
     split_date_range (S (S fuel)) (Timestamp_of 2024 1 1) (Timestamp_of 2024 1 2)
                      (Timedelta_hours 12)
     = Returns [(Timestamp_of 2024 1 1,
                 Timestamp_of 2024 1 1 + 12 * 3600000000000)]).
Proof.
  split; (split; [discriminate|split]).
  - apply nonneg_Timedelta_days. lia.
  - intros fuel. apply split_loop_raises; [discriminate|reflexivity].
  - apply nonneg_Timedelta. lia.
  - intros fuel. unfold split_date_range.
    rewrite (split_loop_step _ _ _ _ _
               (Timestamp_of 2024 1 1 + 12 * 3600000000000));
      [|discriminate|reflexivity|reflexivity|reflexivity].
    apply split_loop_empty. reflexivity.
Qed.

(** C1, as the code has it: for dates [start <= end] and a non-negative
    period of whole days, when every timestamp the loop computes is within
    the bounds of [pd.Timestamp] ([start] is not before the lower bound,
    [date + period] does not raise on the dates of the span, and
    [end + 1 day] is not after the upper bound), [split_date_range]
    returns (with any sufficient iteration bound) a sequence of ranges of
    dates in which the first starts at [start], the last ends at [end],
    each range starts one day after the previous one ends, no two ranges
    overlap, and a date lies in some range exactly when it lies in
    [[start, end]]. *)
Theorem split_date_range_tiles_span :
  forall (start_date end_date : Timestamp) (period : Period),
    is_midnight start_date -> is_midnight end_date ->
    start_date <= end_date ->
    nonneg_period period -> whole_days period ->
    Timestamp_min <= start_date ->
    end_date + NS_PER_DAY <= Timestamp_max ->
    (forall t, is_midnight t -> start_date <= t <= end_date ->
               add_period t period <> None) ->
    exists rs,
      (forall fuel, (enough_fuel start_date end_date <= fuel)%nat ->
                    split_date_range fuel start_date end_date period
                    = Returns rs) /\
      (exists e rest, rs = (start_date, e) :: rest) /\
      (exists pre s, rs = pre ++ [(s, end_date)]) /\
      (forall i a b c d,
          nth_error rs i = Some (a, b) -> nth_error rs (S i) = Some (c, d) ->
          c = b + NS_PER_DAY) /\
      (forall a b, In (a, b) rs -> is_midnight a /\ is_midnight b /\ a <= b) /\
      (forall i j a b c d,
          (i < j)%nat ->
          nth_error rs i = Some (a, b) -> nth_error rs j = Some (c, d) ->
          b < c) /\
      (forall t, is_midnight t ->
                 (start_date <= t <= end_date <->
                  exists a b, In (a, b) rs /\ a <= t <= b)).
Proof.
  intros s e p Hs He Hse Hp Hw Hlo Hhi Hdef.
  destruct (split_loop_chain is_midnight p s e) with
    (fuel := enough_fuel s e) (cur := s) as (rs & Hrs & Hc & Hends);
    [|exact Hlo|exact Hhi|exact Hs|lia|unfold enough_fuel; lia|].
  { intros t Ht Hin. destruct (add_period t p) as [r|] eqn:Hr;
      [|now elim (Hdef t Ht Hin)].
    exists r. split; [reflexivity|]. split; [exact (Hp _ _ Hr)|].
    apply is_midnight_next, is_midnight_min; [exact He|exact (Hw _ _ Ht Hr)]. }
  pose proof (chain_midnights p s rs e Hw He Hc Hs Hends) as Hmid.
  exists rs. split; [|split; [|split; [|split; [|split; [|split]]]]].
  - intros fuel Hf. unfold split_date_range.
    rewrite (split_loop_more_fuel (enough_fuel s e)); [exact Hrs| |exact Hf].
    rewrite Hrs. discriminate.
  - apply (chain_first s rs e Hc Hse).
  - apply (chain_last_midnight s rs e Hc); [|exact He|exact Hmid].
    apply (chain_nonempty s rs e Hc Hse).
  - intros. eapply chain_adjacent; eauto.
  - intros a b Hin. rewrite Forall_forall in Hmid.
    destruct (Hmid _ Hin) as (Ha & Hb).
    pose proof (chain_In _ _ _ _ _ Hc Hin). repeat split; [exact Ha|exact Hb|lia].
  - intros i j a b c d Hij H1 H2.
    pose proof (chain_ordered _ _ _ _ _ _ _ _ _ Hc Hij H1 H2).
    pose proof NS_PER_DAY_pos. lia.
  - intros t Ht. apply chain_cover; assumption.
Qed.

Lemma split_date_range_tiles_span_witness :
  exists rs,
    split_date_range 11 (midnight 0) (midnight 9) (Timedelta_days 3)
    = Returns rs /\
    (exists e rest, rs = (midnight 0, e) :: rest) /\
    (exists pre s, rs = pre ++ [(s, midnight 9)]).
Proof.
  destruct (split_date_range_tiles_span (midnight 0) (midnight 9)
              (Timedelta_days 3)) as (rs & H1 & H2 & H3 & _).
  - now exists 0.
  - now exists 9.
  - vm_compute. discriminate.
  - apply nonneg_Timedelta_days. lia.
  - apply whole_days_Timedelta_days.
  - vm_compute. discriminate.
  - vm_compute. discriminate.
  - intros t _ Ht.
    change (midnight 0) with 0 in Ht.
    change (midnight 9) with 777600000000000 in Ht.
    assert (E : add_period t (Timedelta_days 3) = Some (t + 3 * NS_PER_DAY));
      [|congruence].
    apply add_days. rewrite !in_bounds_spec.
    unfold Timestamp_min, Timestamp_max, NS_PER_DAY. lia.
  - exists rs. split; [apply H1; vm_compute; lia|]. split; assumption.
Defined.

(** A reversed range: the call returns normally, with the empty list. *)
Lemma split_date_range_reversed_returns_empty :
  split_date_range 1 (midnight 5) (midnight 3) (Timedelta_days 1) = Returns [].
Proof. reflexivity. Qed.

(** C8, as the code has it: with [start > end] the loop condition is false
    at once and [split_date_range] returns the empty list; nothing is
    raised. *)
Theorem split_date_range_reversed :
  forall (start_date end_date : Timestamp) (period : Period) (fuel : nat),
    end_date < start_date ->
    split_date_range (S fuel) start_date end_date period = Returns [].
Proof.
  intros s e p fuel H. unfold split_date_range. now apply split_loop_empty.
Qed.

Lemma split_date_range_reversed_witness :
  split_date_range 1 (Timestamp_of 2024 1 1) (Timestamp_of 2023 1 1)
                   (Timedelta_days 30) = Returns [].
Proof.
  apply (split_date_range_reversed (Timestamp_of 2024 1 1)
           (Timestamp_of 2023 1 1) (Timedelta_days 30) 0).
  reflexivity.
Defined.

(** C10: for [start <= end], under a non-negative period the loop stops
    within [(end - start) // 1 day + 1] iterations, by returning its list
    or by raising on a sum out of bounds; each iteration that goes on
    moves the cursor to one day after the end of the range it emits, hence
    at least one day forward.  Under a negative period it need not stop:
    with [Timedelta(days=-1)], away from the bounds, every range ends a day
    before it starts and the cursor stays where it is, for ever. *)
Theorem split_date_range_terminates :
  forall (start_date end_date : Timestamp),
    start_date <= end_date ->
    (forall period, nonneg_period period ->
       exists result,
         result <> Hangs /\
         forall fuel,
           (enough_fuel start_date end_date <= fuel)%nat ->
           split_date_range fuel start_date end_date period = result) /\
    (forall period cur acc fuel shifted next,
       nonneg_period period -> cur <= end_date ->
       add_period cur period = Some shifted ->
       add_period (Z.min end_date shifted) (Timedelta_days 1) = Some next ->
       next = Z.min end_date shifted + NS_PER_DAY /\
       cur + NS_PER_DAY <= next /\
       split_loop (S fuel) end_date period cur acc =
       split_loop fuel end_date period next
                  (acc ++ [(cur, Z.min end_date shifted)])) /\
    (~ nonneg_period (Timedelta_days (-1)) /\
     (Timestamp_min + NS_PER_DAY <= start_date ->
      end_date <= Timestamp_max ->
      forall fuel,
        split_date_range fuel start_date end_date (Timedelta_days (-1))
        = Hangs)).
Proof.
  intros s e Hse. split; [|split].
  - intros p Hp.
    assert (Hstop : split_date_range (enough_fuel s e) s e p <> Hangs)
      by (apply (split_loop_stops p e Hp); unfold enough_fuel; lia).
    exists (split_date_range (enough_fuel s e) s e p).
    split; [exact Hstop|].
    intros fuel Hf. now apply split_loop_more_fuel.
  - intros p cur acc fuel shifted next Hp Hc Hs Hn.
    pose proof (Hp _ _ Hs) as Hle.
    apply add_one_day in Hn. destruct Hn as (Hb & Hb' & ->).
    split; [reflexivity|].
    split; [lia|]. simpl. apply Z.leb_le in Hc. rewrite Hc, Hs.
    assert (E : add_period (Z.min e shifted) (Timedelta_days 1)
                = Some (Z.min e shifted + NS_PER_DAY))
      by (apply add_one_day; auto).
    now rewrite E.
  - split.
    + intros Hn. specialize (Hn 0 (- NS_PER_DAY) eq_refl). now apply Hn.
    + intros Hlo Hhi fuel. unfold split_date_range.
      now apply split_loop_diverges.
Qed.

Lemma split_date_range_terminates_witness :
  (exists result,
      result <> Hangs /\
      split_date_range 11 (midnight 0) (midnight 9) (Timedelta_days 3)
      = result) /\
  split_date_range 1000 (midnight 0) (midnight 9) (Timedelta_days (-1)) = Hangs.
Proof.
  destruct (split_date_range_terminates (midnight 0) (midnight 9))
    as (H1 & _ & _ & H3); [vm_compute; discriminate|].
  split.
  - destruct (H1 (Timedelta_days 3)) as (r & Hr & Hrs);
      [apply nonneg_Timedelta_days; lia|].
    exists r. split; [exact Hr|]. apply Hrs. vm_compute. lia.
  - apply H3; vm_compute; discriminate.
Defined.

End SplitDateRange.

(** ** The retry policy *)

Section Retry.

Context {A : Type}.

(** An attempt that issues exactly one provider call [q] and does not
    hang. *)
Variable f : M A.
Variable q : request.
Variable delay : Z.
Hypothesis f_calls_once : forall w, snd (f w) = w ++ [Call q].
Hypothesis f_ends : forall w, fst (f w) <> Hangs.

Lemma retry_after_S retries w :
  retry_after (S retries) delay f w =
  match f w with
  | (Raises e, w') => retry_after retries delay f (w' ++ [Sleep delay])
  | r => r
  end.
Proof. simpl. now destruct (f w) as [[a|e|] w']. Qed.

(** What [retries + 1] attempts do: some [k <= retries] attempts fail and
    are followed by a pause, and the outcome is that of attempt [k + 1],
    which is a failure only when no attempt is left. *)
Lemma retry_after_spec retries :
  forall w, exists k,
    (k <= retries)%nat /\
    (forall j, (j < k)%nat ->
               exists e, fst (f (w ++ failed_attempts q delay j)) = Raises e) /\
    retry_after retries delay f w =
    (fst (f (w ++ failed_attempts q delay k)),
     w ++ failed_attempts q delay k ++ [Call q]) /\
    ((exists e, fst (f (w ++ failed_attempts q delay k)) = Raises e) ->
     k = retries).
Proof.
  induction retries as [|n IH]; intros w.
  - exists O. split; [lia|]. split; [intros j Hj; lia|].
    simpl. rewrite app_nil_r. split; [|reflexivity].
    pose proof (f_calls_once w) as Hs.
    destruct (f w) as [[a|e|] w']; simpl in *; subst; reflexivity.
  - pose proof (f_calls_once w) as Hs. pose proof (f_ends w) as He.
    rewrite retry_after_S.
    destruct (f w) as [[a|e|] w'] eqn:E; simpl in Hs, He; subst w'.
    + exists O. simpl. rewrite app_nil_r, E. simpl.
      repeat split; try lia. intros [e He']. discriminate.
    + destruct (IH ((w ++ [Call q]) ++ [Sleep delay])) as (k & Hk & Hj & Hr & Hl).
      assert (Eq : forall m, ((w ++ [Call q]) ++ [Sleep delay]) ++ m =
                             w ++ Call q :: Sleep delay :: m)
        by (intros m; now rewrite <- !app_assoc).
      exists (S k). split; [lia|]. split; [|split].
      * intros [|j] Hlt.
        -- simpl. rewrite app_nil_r, E. simpl. eauto.
        -- simpl. rewrite <- Eq. apply Hj. lia.
      * rewrite Hr. simpl. now rewrite !Eq.
      * simpl. rewrite <- Eq. intros H. f_equal. now apply Hl.
    + congruence.
Qed.

(** When every one of the [retries + 1] attempts fails, all of them are
    made, with a pause between two of them, and the failure of the last
    one is the outcome. *)
Lemma retry_after_exhausted retries w :
  (forall j, (j <= retries)%nat ->
             exists e, fst (f (w ++ failed_attempts q delay j)) = Raises e) ->
  retry_after retries delay f w =
  (fst (f (w ++ failed_attempts q delay retries)),
   w ++ failed_attempts q delay retries ++ [Call q]).
Proof.
  intros Hall.
  destruct (retry_after_spec retries w) as (k & Hk & _ & Hr & Hl).
  rewrite Hr. assert (k = retries) as -> by (apply Hl, Hall, Hk).
  reflexivity.
Qed.

End Retry.

(** A value returned through [retry] was returned by one of the attempts. *)
Lemma retry_after_returns {A} (f : M A) delay retries :
  forall w a w',
    retry_after retries delay f w = (Returns a, w') ->
    exists w0, f w0 = (Returns a, w').
Proof.
  induction retries as [|n IH]; intros w a w'.
  - simpl. destruct (f w) as [[b|e|] w1] eqn:E; intros [= <- <-]. eauto.
  - rewrite retry_after_S. destruct (f w) as [[b|e|] w1] eqn:E.
    + intros [= <- <-]. eauto.
    + apply IH.
    + discriminate.
Qed.

(** A list comprehension stops at the first element whose evaluation
    raises. *)
Lemma for_each_raises {A B} (f : A -> M B) pre x post :
  forall w ys w1 e w2,
    for_each f pre w = (Returns ys, w1) ->
    f x w1 = (Raises e, w2) ->
    for_each f (pre ++ x :: post) w = (Raises e, w2).
Proof.
  induction pre as [|p pre IH]; intros w ys w1 e w2; simpl.
  - intros [= <- <-] Hx. unfold bind. now rewrite Hx.
  - unfold bind.
    destruct (f p w) as [[y|e'|] w']; try discriminate.
    destruct (for_each f pre w') as [[ys'|e'|] w''] eqn:Epre; try discriminate.
    intros [= <- <-] Hx.
    now rewrite (IH w' ys' w'' e w2 Epre Hx).
Qed.

(** ** The intraday frequencies *)

Section Frequencies.

Import Tushare.

Lemma minute_frequency_cases frequency :
  is_minute_frequency frequency = true ->
  In frequency ["1min"; "5min"; "15min"; "30min"; "60min"]%string.
Proof.
  unfold is_minute_frequency. intros H.
  apply existsb_exists in H. destruct H as (x & Hx & E).
  apply String.eqb_eq in E. now subst.
Qed.

Lemma max_days_nonneg frequency :
  is_minute_frequency frequency = true ->
  0 <= max_days_per_iteration frequency.
Proof.
  intros H. apply minute_frequency_cases in H. simpl in H.
  destruct H as [<-|[<-|[<-|[<-|[<-|[]]]]]]; vm_compute; discriminate.
Qed.

End Frequencies.

(** ** Retried provider calls inside [fetch] *)

Section RetryPolicy.

Import Tushare.

Variable api : DataApi.
Variable today : Timestamp.
Variable symbol : string.

Lemma high_freq_attempt_eq s e frequency w :
  high_freq_attempt api symbol s e frequency w =
  (match pro_bar api w (convert_symbol symbol) (day_of s) (day_of e)
                 frequency with
   | inl err => Raises err
   | inr data =>
       Returns (map normalize_high_freq (sort_values MinuteRow.trade_time data))
   end,
   w ++ [Call (ReqProBar (convert_symbol symbol) (day_of s) (day_of e)
                         frequency)]).
Proof.
  unfold high_freq_attempt, bind, call_pro_bar.
  now destruct (pro_bar api w (convert_symbol symbol) (day_of s) (day_of e)
                        frequency).
Qed.

Lemma daily_attempt_eq s e w :
  daily_attempt api symbol s e w =
  (match daily api w (convert_symbol symbol) (convert_date s)
               (convert_date e) with
   | inl err => Raises err
   | inr data =>
       Returns (map normalize_daily (sort_values DailyRow.trade_date data))
   end,
   w ++ [Call (ReqDaily (convert_symbol symbol) (convert_date s)
                        (convert_date e))]).
Proof.
  unfold daily_attempt, bind, call_daily.
  now destruct (daily api w (convert_symbol symbol) (convert_date s)
                      (convert_date e)).
Qed.

Lemma high_freq_attempt_raises s e frequency w err :
  fst (high_freq_attempt api symbol s e frequency w) = Raises err <->
  pro_bar api w (convert_symbol symbol) (day_of s) (day_of e) frequency
  = inl err.
Proof.
  rewrite high_freq_attempt_eq. simpl.
  destruct (pro_bar api w (convert_symbol symbol) (day_of s) (day_of e)
                    frequency);
    split; intros [=]; congruence.
Qed.

Lemma daily_attempt_raises s e w err :
  fst (daily_attempt api symbol s e w) = Raises err <->
  daily api w (convert_symbol symbol) (convert_date s) (convert_date e)
  = inl err.
Proof.
  rewrite daily_attempt_eq. simpl.
  destruct (daily api w (convert_symbol symbol) (convert_date s)
                  (convert_date e));
    split; intros [=]; congruence.
Qed.

Lemma high_freq_attempt_ends s e frequency w :
  fst (high_freq_attempt api symbol s e frequency w) <> Hangs.
Proof.
  rewrite high_freq_attempt_eq. simpl.
  now destruct (pro_bar api w (convert_symbol symbol) (day_of s) (day_of e)
                        frequency).
Qed.

Lemma daily_attempt_ends s e w :
  fst (daily_attempt api symbol s e w) <> Hangs.
Proof.
  rewrite daily_attempt_eq. simpl.
  now destruct (daily api w (convert_symbol symbol) (convert_date s)
                      (convert_date e)).
Qed.

Lemma high_freq_attempt_trace s e frequency w :
  snd (high_freq_attempt api symbol s e frequency w) =
  w ++ [Call (ReqProBar (convert_symbol symbol) (day_of s) (day_of e)
                        frequency)].
Proof. now rewrite high_freq_attempt_eq. Qed.

Lemma daily_attempt_trace s e w :
  snd (daily_attempt api symbol s e w) =
  w ++ [Call (ReqDaily (convert_symbol symbol) (convert_date s)
                       (convert_date e))].
Proof. now rewrite daily_attempt_eq. Qed.

Lemma minute_frequency_not_daily frequency :
  is_minute_frequency frequency = true -> String.eqb frequency "daily" = false.
Proof.
  unfold is_minute_frequency. simpl. rewrite !orb_true_iff.
  intros [H|[H|[H|[H|[H|H]]]]]; try discriminate;
    apply String.eqb_eq in H; subst; reflexivity.
Qed.

(** C2: inside a historical-price fetch every chunk call is attempted at
    most five times, with a pause of 10 seconds after each failed attempt
    that is retried, whatever the exception; and when the five attempts on
    one chunk all fail, after the chunks before it succeeded, the whole
    fetch raises the exception of the fifth attempt, having made exactly
    five calls for that chunk, and returns no table.  The same holds of
    the single call of a daily fetch. *)
Theorem fetch_fails_after_five_attempts :
  forall (start_date end_date : option Timestamp) (frequency : string),
    is_minute_frequency frequency = true ->
    let code := convert_symbol symbol in
    let start := match start_date with None => floor_2010 | Some d => d end in
    let stop := match end_date with None => today | Some d => d end in
    let chunk '(s, e) :=
      fetch_historical_data_high_freq api symbol s e frequency in
    (forall s e w,
        let q := ReqProBar code (day_of s) (day_of e) frequency in
        exists k,
          (k < 5)%nat /\
          snd (chunk (s, e) w) = w ++ failed_attempts q 10 k ++ [Call q] /\
          (forall j, (j < k)%nat ->
             exists err,
               pro_bar api (w ++ failed_attempts q 10 j) code
                       (day_of s) (day_of e) frequency
               = inl err) /\
          ((exists err, fst (chunk (s, e) w) = Raises err) -> k = 4%nat)) /\
    (forall pre s e post w frames w1,
        let q := ReqProBar code (day_of s) (day_of e) frequency in
        Time.split_date_range (Time.enough_fuel start stop) start stop
          (Timedelta_days (max_days_per_iteration frequency))
        = Returns (pre ++ (s, e) :: post) ->
        for_each chunk pre w = (Returns frames, w1) ->
        (forall j, (j < 5)%nat ->
           exists err,
             pro_bar api (w1 ++ failed_attempts q 10 j) code
                     (day_of s) (day_of e) frequency
             = inl err) ->
        exists err,
          pro_bar api (w1 ++ failed_attempts q 10 4) code
                  (day_of s) (day_of e) frequency
          = inl err /\
          fetch_historical_data api today (Some symbol) start_date end_date
            None (Some frequency) None w
          = (Raises err, w1 ++ failed_attempts q 10 4 ++ [Call q])) /\
    (forall w,
        let q := ReqDaily code (convert_date start) (convert_date stop) in
        (forall j, (j < 5)%nat ->
           exists err,
             daily api (w ++ failed_attempts q 10 j) code
                   (convert_date start) (convert_date stop) = inl err) ->
        exists err,
          daily api (w ++ failed_attempts q 10 4) code
                (convert_date start) (convert_date stop) = inl err /\
          fetch_historical_data api today (Some symbol) start_date end_date
            None (Some "daily"%string) None w
          = (Raises err, w ++ failed_attempts q 10 4 ++ [Call q])).
Proof.
  intros sd ed frequency Hfreq code start stop chunk.
  split; [|split].
  - intros s e w q. unfold chunk, fetch_historical_data_high_freq, retry.
    change (Nat.pred (Pos.to_nat 5)) with 4%nat.
    destruct (retry_after_spec (high_freq_attempt api symbol s e frequency)
                q 10 (high_freq_attempt_trace s e frequency)
                (high_freq_attempt_ends s e frequency) 4 w)
      as (k & Hk & Hj & Hr & Hl).
    exists k. rewrite Hr. simpl. split; [lia|]. split; [reflexivity|].
    split; [|exact Hl].
    intros j Hlt. destruct (Hj j Hlt) as (err & He).
    exists err. now apply high_freq_attempt_raises.
  - intros pre s e post w frames w1 q Hsplit Hpre Hfail.
    destruct (Hfail 4%nat) as (err & Herr); [lia|].
    exists err. split; [exact Herr|].
    assert (Hchunk : chunk (s, e) w1 =
                     (Raises err, w1 ++ failed_attempts q 10 4 ++ [Call q])).
    { unfold chunk, fetch_historical_data_high_freq, retry.
      change (Nat.pred (Pos.to_nat 5)) with 4%nat.
      rewrite (retry_after_exhausted _ q 10
                 (high_freq_attempt_trace s e frequency)
                 (high_freq_attempt_ends s e frequency)).
      - f_equal. now apply high_freq_attempt_raises.
      - intros j Hj. destruct (Hfail j) as (err' & He'); [lia|].
        exists err'. now apply high_freq_attempt_raises. }
    enter_history.
    rewrite (minute_frequency_not_daily _ Hfreq), Hfreq.
    fold start stop. rewrite Hsplit.
    unfold bind at 1. fold chunk.
    now rewrite (for_each_raises chunk pre (s, e) post w frames w1 err _ Hpre Hchunk).
  - intros w q Hfail.
    destruct (Hfail 4%nat) as (err & Herr); [lia|].
    exists err. split; [exact Herr|].
    enter_history.
    change (String.eqb "daily" "daily") with true. cbv iota.
    fold start stop. unfold bind at 1, fetch_historical_data_daily, retry.
    change (Nat.pred (Pos.to_nat 5)) with 4%nat.
    rewrite (retry_after_exhausted _ q 10
               (daily_attempt_trace start stop) (daily_attempt_ends start stop)).
    + apply daily_attempt_raises in Herr. now rewrite Herr.
    + intros j Hj. destruct (Hfail j) as (err' & He'); [lia|].
      exists err'. now apply daily_attempt_raises.
Qed.

End RetryPolicy.

Section RetryPolicyExamples.

Import Tushare.

(** Two failed attempts, two pauses, and the third attempt is the answer. *)
Example fetch_recovers :
  let q := ReqDaily "600000.SH" 100 100 in
  fetch api_recovering (midnight 20000) "ohlcv" (Some "600000"%string)
        (Some (midnight 100)) (Some (midnight 100)) None
        (Some "daily"%string) None []
  = (Returns (Bars [normalize_daily (daily_row 100 (CInt 1) (CInt 1))]),
     [Call q; Sleep 10; Call q; Sleep 10; Call q]).
Proof. vm_compute. reflexivity. Qed.

(** A provider that is down: five calls, four pauses, the last failure. *)
Example fetch_gives_up :
  let q := ReqDaily "600000.SH" 100 100 in
  fetch api_down (midnight 20000) "ohlcv" (Some "600000"%string)
        (Some (midnight 100)) (Some (midnight 100)) None
        (Some "daily"%string) None []
  = (Raises (ProviderError "timeout"),
     [Call q; Sleep 10; Call q; Sleep 10; Call q; Sleep 10; Call q; Sleep 10;
      Call q]).
Proof. vm_compute. reflexivity. Qed.

(** Unknown dataset and frequency names are refused at once. *)
Example fetch_unsupported :
  fetch api_down (midnight 20000) "nonexistent" (Some "600000"%string)
        None None None None None []
  = (Raises (ValueError "unsupported dataset: nonexistent"), []) /\
  fetch api_down (midnight 20000) "history" (Some "600000"%string)
        None None None (Some "3min"%string) None []
  = (Raises (ValueError "Unsupported frequency: 3min"), []).
Proof. split; reflexivity. Qed.

Lemma fetch_fails_after_five_attempts_witness :
  let q0 := ReqProBar "000001.SZ" 0 208 "5min" in
  let q1 := ReqProBar "000001.SZ" 209 300 "5min" in
  fetch_historical_data api_flaky (midnight 20000) (Some "000001"%string)
    (Some (midnight 0)) (Some (midnight 300)) None (Some "5min"%string) None []
  = (Raises (ProviderError "rate limit"),
     [Call q0; Call q1; Sleep 10; Call q1; Sleep 10; Call q1; Sleep 10;
      Call q1; Sleep 10; Call q1]).
Proof.
  intros q0 q1.
  destruct (proj1 (proj2 (fetch_fails_after_five_attempts api_flaky
                            (midnight 20000) "000001" (Some (midnight 0))
                            (Some (midnight 300)) "5min" eq_refl))
              [(midnight 0, midnight 208)] (midnight 209) (midnight 300) [] []
              [map normalize_high_freq [minute_row 0 34200 (CInt 1) (CInt 1)]]
              [Call q0])
    as (err & Herr & Hf).
  - reflexivity.
  - reflexivity.
  - intros j Hj. eexists. reflexivity.
  - injection Herr as <-. exact Hf.
Defined.

(** C9, on the adjustment-factor path: a missing symbol or date makes
    every attempt fail on [None] before the provider is called, and the
    failure reaches the caller only after five attempts and four pauses of
    10 seconds. *)
Theorem adjust_factor_missing_argument_retried :
  forall api today symbol start_date end_date trade_date frequency fields w,
    symbol = None \/ start_date = None \/ end_date = None ->
    fetch api today "adjust_factor" symbol start_date end_date trade_date
          frequency fields w
    = (Raises AttributeError,
       w ++ [Sleep 10; Sleep 10; Sleep 10; Sleep 10]).
Proof.
  intros api today symbol sd ed td fr fields w Hmiss.
  unfold fetch. cbn [String.eqb Ascii.eqb Bool.eqb orb].
  unfold fetch_adjust_factor, retry.
  change (Nat.pred (Pos.to_nat 5)) with 4%nat.
  assert (E : forall w', adjust_factor_attempt api symbol sd ed w'
                         = (Raises AttributeError, w')).
  { intros w'. unfold adjust_factor_attempt, bind, getattr.
    destruct Hmiss as [->|[->| ->]]; [reflexivity| |].
    - destruct symbol; reflexivity.
    - destruct symbol; [destruct sd|]; reflexivity. }
  do 4 (rewrite retry_after_S, E). cbn [retry_after]. rewrite E.
  now rewrite <- !app_assoc.
Qed.

Lemma adjust_factor_missing_argument_retried_witness :
  fetch api_steady (midnight 20000) "adjust_factor" None
        (Some (Timestamp_of 2020 1 1)) (Some (Timestamp_of 2020 12 31))
        None None None []
  = (Raises AttributeError, [Sleep 10; Sleep 10; Sleep 10; Sleep 10]).
Proof.
  apply (adjust_factor_missing_argument_retried api_steady (midnight 20000)
           None (Some (Timestamp_of 2020 1 1)) (Some (Timestamp_of 2020 12 31))
           None None None []).
  left. reflexivity.
Defined.

(** On the historical-price path the same mistake is reported at once. *)
Lemma history_missing_symbol_immediate :
  forall api today dataset start_date end_date trade_date frequency fields w,
    dataset = "history"%string \/ dataset = "ohlcv"%string ->
    fetch api today dataset None start_date end_date trade_date
          frequency fields w
    = (Raises AssertionError, w).
Proof.
  intros ? ? ? ? ? ? ? ? ? [-> | ->]; reflexivity.
Qed.

(** The adjustment-factor handler does not fill in omitted dates: the
    attempt fails on [None], no call is ever made for a window starting on
    2010-01-01. *)
Lemma adjust_factor_dates_not_defaulted :
  fetch api_flaky (midnight 20000) "adjust_factor" (Some "000001"%string)
        None None None None None []
  = (Raises AttributeError, [Sleep 10; Sleep 10; Sleep 10; Sleep 10]) /\
  fetch api_flaky (midnight 20000) "adjust_factor" (Some "000001"%string)
        None None None None None []
  <> fetch api_flaky (midnight 20000) "adjust_factor" (Some "000001"%string)
           (Some floor_2010) (Some (midnight 20000)) None None None [].
Proof.
  split; [reflexivity|]. vm_compute. discriminate.
Qed.

Example floor_2010_day : floor_2010 = midnight 14610.
Proof. reflexivity. Qed.

(** C7, for the historical-price dataset: a fetch with an omitted
    [start_date] is the fetch from 2010-01-01, and one with an omitted
    [end_date] is the fetch up to today; in a daily fetch the first thing
    done to the provider is the call for that window. *)
Theorem history_dates_defaulted :
  forall api today dataset symbol start_date end_date trade_date frequency
         fields,
    dataset = "history"%string \/ dataset = "ohlcv"%string ->
    let start := match start_date with None => floor_2010 | Some d => d end in
    let stop := match end_date with None => today | Some d => d end in
    floor_2010 = Timestamp_of 2010 1 1 /\
    fetch api today dataset symbol start_date end_date trade_date frequency
          fields
    = fetch api today dataset symbol (Some start) (Some stop) trade_date
            frequency fields /\
    (forall sym w,
        exists r rest,
          fetch api today dataset (Some sym) start_date end_date None
                (Some "daily"%string) None w
          = (r, w ++ Call (ReqDaily (convert_symbol sym) (convert_date start)
                                    (convert_date stop)) :: rest)).
Proof.
  intros api today dataset symbol sd ed td fr fields Hd start stop.
  split; [reflexivity|]. split.
  - destruct Hd as [-> | ->]; unfold fetch; cbn [String.eqb Ascii.eqb Bool.eqb orb];
      unfold fetch_historical_data;
      destruct symbol, fr; reflexivity.
  - intros sym w.
    assert (E : fetch api today dataset (Some sym) sd ed None
                      (Some "daily"%string) None
                = fetch_historical_data api today (Some sym) sd ed None
                      (Some "daily"%string) None)
      by (destruct Hd as [-> | ->]; reflexivity).
    rewrite E. enter_history.
    change (String.eqb "daily" "daily") with true. cbv iota.
    fold start stop. unfold bind at 1, fetch_historical_data_daily, retry.
    change (Nat.pred (Pos.to_nat 5)) with 4%nat.
    set (q := ReqDaily (convert_symbol sym) (convert_date start)
                       (convert_date stop)).
    destruct (retry_after_spec (daily_attempt api sym start stop) q 10
                (daily_attempt_trace api sym start stop)
                (daily_attempt_ends api sym start stop) 4 w)
      as (k & _ & _ & Hr & _).
    rewrite Hr.
    destruct (fst (daily_attempt api sym start stop
                     (w ++ failed_attempts q 10 k))) as [rows|e|];
      (destruct k as [|k]; [do 2 eexists; reflexivity|]);
      simpl; do 2 eexists; reflexivity.
Qed.

Lemma history_dates_defaulted_witness :
  fetch api_steady (midnight 20000) "history" (Some "000001"%string)
        None None None (Some "5min"%string) None
  = fetch api_steady (midnight 20000) "history" (Some "000001"%string)
          (Some (Timestamp_of 2010 1 1)) (Some (midnight 20000)) None
          (Some "5min"%string) None.
Proof.
  apply (history_dates_defaulted api_steady (midnight 20000) "history"
           (Some "000001"%string) None None None (Some "5min"%string) None).
  left. reflexivity.
Defined.

End RetryPolicyExamples.

(** ** Sorting *)

Section Sorting.

Context {A : Type}.
Variable key : A -> Z.

Lemma insert_by_perm x l : Permutation (insert_by key x l) (x :: l).
Proof.
  induction l as [|y l IH]; simpl; [reflexivity|].
  destruct (key x <=? key y); [reflexivity|].
  rewrite IH. apply perm_swap.
Qed.

Lemma sort_values_perm l : Permutation (sort_values key l) l.
Proof.
  induction l as [|x l IH]; simpl; [reflexivity|].
  rewrite insert_by_perm. now constructor.
Qed.

Lemma insert_by_sorted x l :
  StronglySorted (fun a b => key a <= key b) l ->
  StronglySorted (fun a b => key a <= key b) (insert_by key x l).
Proof.
  induction 1 as [|y l Hs IH Hall]; simpl.
  - repeat constructor.
  - destruct (Z.leb_spec (key x) (key y)) as [Hle|Hgt].
    + constructor; [now constructor|].
      constructor; [exact Hle|].
      eapply Forall_impl; [|exact Hall]. simpl. intros; lia.
    + constructor; [exact IH|].
      rewrite (insert_by_perm x l). constructor; [lia|exact Hall].
Qed.

Lemma sort_values_sorted l :
  StronglySorted (fun a b => key a <= key b) (sort_values key l).
Proof.
  induction l as [|x l IH]; simpl; [constructor|].
  now apply insert_by_sorted.
Qed.

(** Without repeated keys the order is strict. *)
Lemma sort_values_strict l :
  NoDup (map key l) ->
  StronglySorted (fun a b => key a < key b) (sort_values key l).
Proof.
  intros Hnd.
  assert (Hnd' : NoDup (map key (sort_values key l))).
  { eapply Permutation_NoDup; [|exact Hnd].
    apply Permutation_map. symmetry. apply sort_values_perm. }
  pose proof (sort_values_sorted l) as Hs.
  induction Hs as [|x l' Hs IH Hall]; [constructor|].
  simpl in Hnd'. inversion Hnd' as [|? ? Hnotin Hnd'']; subst.
  constructor; [now apply IH|].
  rewrite Forall_forall in Hall |- *. intros y Hy.
  specialize (Hall y Hy).
  assert (key x <> key y); [|lia].
  intros E. apply Hnotin. rewrite E. now apply in_map.
Qed.

End Sorting.

Lemma StronglySorted_app {A} (R : A -> A -> Prop) l1 l2 :
  StronglySorted R l1 -> StronglySorted R l2 ->
  (forall x y, In x l1 -> In y l2 -> R x y) ->
  StronglySorted R (l1 ++ l2).
Proof.
  induction 1 as [|x l1 Hs IH Hall]; intros H2 H12; simpl; [exact H2|].
  constructor.
  - apply IH; [exact H2|]. intros a b Ha Hb. apply H12; [now right|exact Hb].
  - apply Forall_app. split; [exact Hall|].
    rewrite Forall_forall. intros y Hy. apply H12; [now left|exact Hy].
Qed.

(** ** Order of the returned rows *)

Section RowOrder.

Import Tushare.

Lemma bar_lt_irrefl b : ~ bar_lt b b.
Proof.
  intros [H|[_ H]]; [lia|].
  unfold time_lt in H. destruct (Bar.time b); [lia|exact H].
Qed.

Lemma sorted_bars_distinct rows :
  StronglySorted bar_lt rows -> NoDup (map bar_key rows).
Proof.
  induction 1 as [|b rows Hs IH Hall]; simpl; constructor; [|exact IH].
  intros Hin. apply in_map_iff in Hin. destruct Hin as (b' & Hk & Hb').
  rewrite Forall_forall in Hall. specialize (Hall b' Hb').
  unfold bar_key in Hk. injection Hk as _ Hd Ht.
  destruct Hall as [H|[_ H]]; [lia|].
  rewrite Ht in H. unfold time_lt in H. destruct (Bar.time b); [lia|exact H].
Qed.

(** The rows of one intraday answer, once sorted and normalised. *)
Lemma high_freq_rows_sorted s e data :
  NoDup (map MinuteRow.trade_time data) ->
  Forall (fun r => s <= MinuteRow.trade_date r <= e /\
                   MinuteRow.trade_date r = MinuteRow.trade_time r / 86400)
         data ->
  let rows := map normalize_high_freq (sort_values MinuteRow.trade_time data) in
  StronglySorted bar_lt rows /\
  Forall (fun b => s <= Bar.date b <= e) rows.
Proof.
  intros Hnd Hall rows.
  assert (Hall' : Forall (fun r => s <= MinuteRow.trade_date r <= e /\
                     MinuteRow.trade_date r = MinuteRow.trade_time r / 86400)
                    (sort_values MinuteRow.trade_time data)).
  { eapply Permutation_Forall; [|exact Hall].
    symmetry. apply sort_values_perm. }
  pose proof (sort_values_strict MinuteRow.trade_time data Hnd) as Hs.
  subst rows. split.
  - induction Hs as [|r l Hs IH Hlt]; simpl; [constructor|].
    inversion Hall' as [|? ? Hr Hl]; subst.
    constructor; [now apply IH|].
    rewrite Forall_forall in Hlt, Hl |- *.
    intros b Hb. apply in_map_iff in Hb. destruct Hb as (r' & <- & Hr').
    specialize (Hlt r' Hr'). specialize (Hl r' Hr').
    unfold bar_lt. simpl.
    destruct Hr as (_ & Hd), Hl as (_ & Hd').
    assert (MinuteRow.trade_time r / 86400 <= MinuteRow.trade_time r' / 86400)
      by (apply Z.div_le_mono; lia).
    lia.
  - rewrite Forall_forall in Hall' |- *.
    intros b Hb. apply in_map_iff in Hb. destruct Hb as (r' & <- & Hr').
    simpl. now apply Hall'.
Qed.

(** The rows of one daily answer. *)
Lemma daily_rows_sorted data :
  NoDup (map DailyRow.trade_date data) ->
  StronglySorted bar_lt
    (map normalize_daily (sort_values DailyRow.trade_date data)).
Proof.
  intros Hnd.
  pose proof (sort_values_strict DailyRow.trade_date data Hnd) as Hs.
  induction Hs as [|r l Hs IH Hlt]; simpl; [constructor|].
  constructor; [exact IH|].
  rewrite Forall_forall in Hlt |- *.
  intros b Hb. apply in_map_iff in Hb. destruct Hb as (r' & <- & Hr').
  left. simpl. now apply Hlt.
Qed.

(** The rows of one adjustment-factor answer. *)
Lemma factor_rows_sorted data :
  NoDup (map FactorRow.trade_date data) ->
  StronglySorted factor_lt
    (map normalize_adjust_factor (sort_values FactorRow.trade_date data)).
Proof.
  intros Hnd.
  pose proof (sort_values_strict FactorRow.trade_date data Hnd) as Hs.
  induction Hs as [|r l Hs IH Hlt]; simpl; [constructor|].
  constructor; [exact IH|].
  rewrite Forall_forall in Hlt |- *.
  intros b Hb. apply in_map_iff in Hb. destruct Hb as (r' & <- & Hr').
  unfold factor_lt. simpl. now apply Hlt.
Qed.

Lemma sorted_factors_distinct rows :
  StronglySorted factor_lt rows -> NoDup (map factor_key rows).
Proof.
  induction 1 as [|b rows Hs IH Hall]; simpl; constructor; [|exact IH].
  intros Hin. apply in_map_iff in Hin. destruct Hin as (b' & Hk & Hb').
  rewrite Forall_forall in Hall. specialize (Hall b' Hb').
  unfold factor_key in Hk. injection Hk as _ Hd.
  unfold factor_lt in Hall. lia.
Qed.

Variable api : DataApi.
Hypothesis api_honest : honest api.

Lemma chunk_rows_sorted symbol s e frequency w rows w' :
  fetch_historical_data_high_freq api symbol s e frequency w
  = (Returns rows, w') ->
  StronglySorted bar_lt rows /\
  Forall (fun b => day_of s <= Bar.date b <= day_of e) rows.
Proof.
  unfold fetch_historical_data_high_freq, retry. intros H.
  apply retry_after_returns in H. destruct H as (w0 & H).
  rewrite high_freq_attempt_eq in H.
  destruct (pro_bar api w0 (convert_symbol symbol) (day_of s) (day_of e)
                    frequency)
    as [err|data] eqn:E; [discriminate|].
  injection H as <- _.
  destruct (proj1 api_honest _ _ _ _ _ _ E) as (Hnd & Hall).
  now apply high_freq_rows_sorted.
Qed.

(** The chunks of a chain give frames whose rows, put end to end, are in
    order and dated inside the span. *)
Lemma frames_sorted symbol frequency e periods :
  forall s w frames w',
    chain s periods e ->
    for_each (fun '(a, b) =>
                fetch_historical_data_high_freq api symbol a b frequency)
             periods w = (Returns frames, w') ->
    StronglySorted bar_lt (List.concat frames) /\
    Forall (fun b => day_of s <= Bar.date b <= day_of e) (List.concat frames).
Proof.
  induction periods as [|[a b] periods IH]; intros s w frames w' Ht; simpl.
  - intros [= <- _]. simpl. split; constructor.
  - destruct Ht as (-> & Hab & Hbe & Ht).
    unfold bind.
    destruct (fetch_historical_data_high_freq api symbol s b frequency w)
      as [[fr|err|] w1] eqn:Ec; try discriminate.
    destruct (for_each _ periods w1) as [[frs|err|] w2] eqn:Er; try discriminate.
    intros [= <- _]. simpl.
    destruct (chunk_rows_sorted _ _ _ _ _ _ _ Ec) as (Hs1 & Hd1).
    destruct (IH _ _ _ _ Ht Er) as (Hs2 & Hd2).
    rewrite day_of_next in Hd2.
    pose proof (day_of_le _ _ Hab) as Hdab.
    pose proof (day_of_le _ _ Hbe) as Hdbe.
    rewrite Forall_forall in Hd1, Hd2.
    split.
    + apply StronglySorted_app; [exact Hs1|exact Hs2|].
      intros x y Hx Hy. left.
      specialize (Hd1 x Hx). specialize (Hd2 y Hy). lia.
    + apply Forall_app. split; rewrite Forall_forall; intros x Hx.
      * specialize (Hd1 x Hx). lia.
      * specialize (Hd2 x Hx). lia.
Qed.

(** A chunk call that returns has called the provider for its window,
    and has only added events. *)
Lemma chunk_trace symbol s e frequency w :
  exists ext,
    snd (fetch_historical_data_high_freq api symbol s e frequency w)
    = w ++ ext /\
    In (Call (ReqProBar (convert_symbol symbol) (day_of s) (day_of e)
                        frequency)) ext.
Proof.
  unfold fetch_historical_data_high_freq, retry.
  set (q := ReqProBar (convert_symbol symbol) (day_of s) (day_of e) frequency).
  destruct (retry_after_spec (high_freq_attempt api symbol s e frequency)
              q 10 (high_freq_attempt_trace api symbol s e frequency)
              (high_freq_attempt_ends api symbol s e frequency)
              (Nat.pred (Pos.to_nat 5)) w)
    as (k & _ & _ & Hr & _).
  rewrite Hr. simpl. eexists. split; [reflexivity|].
  apply in_or_app. right. now left.
Qed.

Lemma frames_trace symbol frequency periods :
  forall w frames w',
    for_each (fun '(a, b) =>
                fetch_historical_data_high_freq api symbol a b frequency)
             periods w = (Returns frames, w') ->
    exists ext,
      w' = w ++ ext /\
      forall a b, In (a, b) periods ->
                  In (Call (ReqProBar (convert_symbol symbol)
                                      (day_of a) (day_of b) frequency)) ext.
Proof.
  induction periods as [|[a b] periods IH]; intros w frames w'; simpl.
  - intros [= _ <-]. exists []. split; [now rewrite app_nil_r|]. intros ? ? [].
  - unfold bind.
    destruct (chunk_trace symbol a b frequency w) as (ext1 & Ht & Hin1).
    destruct (fetch_historical_data_high_freq api symbol a b frequency w)
      as [[fr|err|] w1] eqn:Ec; try discriminate.
    simpl in Ht. subst w1.
    destruct (for_each _ periods (w ++ ext1)) as [[frs|err|] w2] eqn:Er;
      try discriminate.
    intros [= _ <-].
    destruct (IH _ _ _ Er) as (ext2 & -> & Hin2).
    exists (ext1 ++ ext2). split; [now rewrite app_assoc|].
    intros a' b' [[= <- <-]|Hin]; apply in_or_app; [now left|right].
    now apply Hin2.
Qed.


End RowOrder.

Section RowOrderExamples.

Import Tushare.

Lemma api_steady_honest : honest api_steady.
Proof.
  assert (Hdiv : forall d, d = (d * 86400 + 34200) / 86400)
    by (intros d; apply (Z.div_unique_pos _ 86400 d 34200); lia).
  split; [|split].
  - intros w code s e freq data. simpl. intros [= <-].
    destruct (Z.ltb_spec s e); [|destruct (Z.eqb_spec s e)]; split;
      repeat constructor; simpl; try lia; try apply Hdiv;
      intros [H'|[]]; lia.
  - intros w code s e data. simpl. intros [= <-].
    destruct (Z.ltb_spec s e); [|destruct (Z.eqb_spec s e)];
      repeat constructor; simpl; try lia;
      intros [H'|[]]; lia.
  - intros w code s e data. simpl. intros [= <-]. constructor.
Qed.



End RowOrderExamples.

(** ** Symbols, chunk lengths and units *)

Section Normalisation.

Import Tushare.

Example convert_symbol_600000 : convert_symbol "600000" = "600000.SH"%string.
Proof. reflexivity. Qed.

Example convert_symbol_000001 : convert_symbol "000001" = "000001.SZ"%string.
Proof. reflexivity. Qed.

Lemma prefix_6 c rest : prefix "6" (String c rest) = Ascii.eqb c "6".
Proof.
  cbn [prefix]. destruct (ascii_dec "6" c) as [<-|H].
  - now destruct rest.
  - symmetry. apply Ascii.eqb_neq. congruence.
Qed.

(** C6: [convert_symbol] is a total function that appends to the symbol a
    suffix fixed by its first character alone: [.SH] when the symbol
    starts with [6], [.SZ] for every other symbol, the empty one
    included. *)
Theorem convert_symbol_leading_char :
  forall symbol : string,
    convert_symbol symbol = (symbol ++ suffix_for (leading_char symbol))%string /\
    (forall rest, symbol = String "6" rest ->
                  convert_symbol symbol = (symbol ++ ".SH")%string) /\
    ((forall rest, symbol <> String "6" rest) ->
     convert_symbol symbol = (symbol ++ ".SZ")%string).
Proof.
  intros symbol. unfold convert_symbol.
  destruct symbol as [|c rest].
  - split; [reflexivity|]. split; [intros ? [=]|reflexivity].
  - rewrite prefix_6. cbn [leading_char suffix_for].
    destruct (Ascii.eqb_spec c "6") as [->|Hc].
    + split; [|split]; try reflexivity.
      intros H. now elim (H rest).
    + split; [|split]; try reflexivity.
      intros rest' [= -> _]. congruence.
Qed.

Lemma convert_symbol_leading_char_witness :
  convert_symbol "600000" = "600000.SH"%string /\
  convert_symbol "000001" = "000001.SZ"%string.
Proof.
  split.
  - apply (proj1 (proj2 (convert_symbol_leading_char "600000"%string)) "00000"%string).
    reflexivity.
  - apply (proj2 (proj2 (convert_symbol_leading_char "000001"%string))).
    intros rest. discriminate.
Defined.

Example max_days_5min : max_days_per_iteration "5min" = 208.
Proof. reflexivity. Qed.




(** An intraday bar of one share and one currency unit comes back as
    such, not multiplied. *)
Lemma intraday_units_not_converted :
  exists b w',
    fetch api_flaky (midnight 20000) "history" (Some "000001"%string)
          (Some (midnight 0)) (Some (midnight 0)) None (Some "5min"%string)
          None []
    = (Returns (Bars [b]), w') /\
    Bar.volume b = 1%float /\ Bar.amount b = 1%float /\
    Bar.volume b <> 100%float /\ Bar.amount b <> 1000%float.
Proof.
  exists (normalize_high_freq (minute_row 0 34200 (CInt 1) (CInt 1))),
         [Call (ReqProBar "000001.SZ" 0 0 "5min")].
  split; [vm_compute; reflexivity|].
  split; [reflexivity|]. split; [reflexivity|].
  split; intros H;
    apply (f_equal (fun x => PrimFloat.ltb x 50)) in H;
    vm_compute in H; discriminate.
Qed.

(** C4, as the code has it: a row of a daily table carries the provider's
    [vol] times 100 and [amount] times 1000, as 64-bit floats, so that
    [vol = 1] and [amount = 1] give 100.0 and 1000.0; a row of an intraday
    table carries the provider's [vol] and [amount] as 64-bit floats,
    unchanged.  The rows of a returned table are the normalised rows of a
    provider answer, sorted. *)
Theorem volume_amount_units :
  (forall r : DailyRow.t,
      Bar.volume (normalize_daily r)
      = (astype_float64 (DailyRow.vol r) * 100)%float /\
      Bar.amount (normalize_daily r)
      = (astype_float64 (DailyRow.amount r) * 1000)%float) /\
  (forall r : MinuteRow.t,
      Bar.volume (normalize_high_freq r) = astype_float64 (MinuteRow.vol r) /\
      Bar.amount (normalize_high_freq r) = astype_float64 (MinuteRow.amount r)) /\
  (forall d,
      Bar.volume (normalize_daily (daily_row d (CInt 1) (CInt 1))) = 100%float /\
      Bar.amount (normalize_daily (daily_row d (CInt 1) (CInt 1))) = 1000%float) /\
  (forall api symbol s e w rows w',
      fetch_historical_data_daily api symbol s e w = (Returns rows, w') ->
      exists w0 data,
        daily api w0 (convert_symbol symbol) (convert_date s)
              (convert_date e) = inr data /\
        rows = map normalize_daily (sort_values DailyRow.trade_date data)) /\
  (forall api symbol s e frequency w rows w',
      fetch_historical_data_high_freq api symbol s e frequency w
      = (Returns rows, w') ->
      exists w0 data,
        pro_bar api w0 (convert_symbol symbol) (day_of s) (day_of e)
                frequency = inr data /\
        rows = map normalize_high_freq
                   (sort_values MinuteRow.trade_time data)).
Proof.
  split; [now split|]. split; [now split|]. split; [now split|]. split.
  - intros api symbol s e w rows w' H.
    unfold fetch_historical_data_daily, retry in H.
    apply retry_after_returns in H. destruct H as (w0 & H).
    rewrite daily_attempt_eq in H.
    destruct (daily api w0 (convert_symbol symbol) (convert_date s)
                    (convert_date e)) as [err|data] eqn:E;
      [discriminate|].
    injection H as <- _. now exists w0, data.
  - intros api symbol s e frequency w rows w' H.
    unfold fetch_historical_data_high_freq, retry in H.
    apply retry_after_returns in H. destruct H as (w0 & H).
    rewrite high_freq_attempt_eq in H.
    destruct (pro_bar api w0 (convert_symbol symbol) (day_of s) (day_of e)
                      frequency)
      as [err|data] eqn:E; [discriminate|].
    injection H as <- _. now exists w0, data.
Qed.

Lemma volume_amount_units_witness :
  exists w0 data,
    daily api_steady w0 "000001.SZ" 5 5 = inr data /\
    map normalize_daily [daily_row 5 (CInt 1) (CInt 1)]
    = map normalize_daily (sort_values DailyRow.trade_date data).
Proof.
  apply (proj1 (proj2 (proj2 (proj2 volume_amount_units)))
           api_steady "000001"%string (midnight 5) (midnight 5) []
           (map normalize_daily [daily_row 5 (CInt 1) (CInt 1)])
           [Call (ReqDaily "000001.SZ" 5 5)]).
  reflexivity.
Defined.

End Normalisation.

(** ** More on the ranges of [split_date_range] *)

Section SplitShape.

Import Time.

(** A [Timedelta] of [d >= 0] days on a span whose sums are within the
    bounds: the loop returns a chain whose ranges end [d] days after they
    start, or at the end of the span. *)
Lemma split_days_returns d s e :
  0 <= d ->
  d * NS_PER_DAY <= Timestamp_max ->
  Timestamp_min <= s ->
  e + d * NS_PER_DAY <= Timestamp_max ->
  e + NS_PER_DAY <= Timestamp_max ->
  exists rs,
    split_loop (enough_fuel s e) e (Timedelta_days d) s [] = Returns rs /\
    chain s rs e /\
    Forall (fun x => snd x = Z.min e (fst x + d * NS_PER_DAY)) rs.
Proof.
  intros Hd Hdb Hlo Hhi Hhi'. pose proof NS_PER_DAY_pos as HD.
  assert (Hmin : Timestamp_min <= 0) by discriminate.
  destruct (split_loop_chain (fun _ => True) (Timedelta_days d) s e)
    with (fuel := enough_fuel s e) (cur := s)
    as (rs & Hrs & Hc & Hall);
    [|exact Hlo|exact Hhi'|exact I|lia|unfold enough_fuel; lia|].
  { intros t _ Ht. exists (t + d * NS_PER_DAY). split; [|split; [nia|exact I]].
    apply add_days. rewrite !in_bounds_spec. nia. }
  exists rs. split; [exact Hrs|]. split; [exact Hc|].
  eapply Forall_impl; [|exact Hall].
  intros [a b] (r & Hr & Hb). simpl in *.
  apply add_days in Hr. destruct Hr as (_ & _ & _ & ->). exact Hb.
Qed.

(** X1: when the whole span fits in one period, [end <= start + period],
    and [end + 1 day] is within the bounds, the result is the single range
    [(start, end)]; two iterations are enough.  In particular
    [start = end] gives one range of one day.  When [start + period] is
    out of bounds the call raises, however short the span. *)
Theorem split_single_range :
  forall (start_date end_date : Timestamp) (period : Period) (fuel : nat),
    start_date <= end_date ->
    (forall shifted,
        add_period start_date period = Some shifted ->
        end_date <= shifted ->
        end_date + NS_PER_DAY <= Timestamp_max ->
        split_date_range (S (S fuel)) start_date end_date period
        = Returns [(start_date, end_date)]) /\
    (add_period start_date period = None ->
     split_date_range (S fuel) start_date end_date period
     = Raises OutOfBoundsDatetime).
Proof.
  intros s e p fuel Hse. pose proof NS_PER_DAY_pos as HD. split.
  - intros shifted Hs Hfit Hhi. unfold split_date_range.
    pose proof (proj1 (add_period_Some _ _ _) Hs) as (Hbs & Hbr & _).
    apply in_bounds_spec in Hbs, Hbr.
    rewrite (split_loop_step _ _ _ _ _ shifted Hse Hs);
      rewrite ?Z.min_l by exact Hfit;
      [|apply in_bounds_spec; lia|apply in_bounds_spec; lia].
    apply split_loop_empty. lia.
  - intros Hs. now apply split_loop_raises.
Qed.

Lemma split_single_range_witness :
  split_date_range 2 (Timestamp_of 2024 1 1) (Timestamp_of 2024 1 1)
                   (Timedelta_days 208)
  = Returns [(Timestamp_of 2024 1 1, Timestamp_of 2024 1 1)] /\
  split_date_range 1 (Timestamp_of 2024 1 1) (Timestamp_of 2024 12 31)
                   (Timedelta_days 100000)
  = Raises OutOfBoundsDatetime.
Proof.
  split.
  - apply (proj1 (split_single_range (Timestamp_of 2024 1 1)
                    (Timestamp_of 2024 1 1) (Timedelta_days 208) 0
                    (Z.le_refl _))
             (Timestamp_of 2024 7 27)); [reflexivity| |];
      vm_compute; discriminate.
  - apply (proj2 (split_single_range (Timestamp_of 2024 1 1)
                    (Timestamp_of 2024 12 31) (Timedelta_days 100000) 0
                    ltac:(vm_compute; discriminate))).
    reflexivity.
Defined.

(** A chain whose ranges each end [p] after their start, or at the end of
    the span: the [i]-th range starts [i] times [p + 1 day] after the
    start of the span, and there are [(e - s) / (p + 1 day) + 1] of
    them. *)
Lemma chain_regular p e :
  0 <= p ->
  forall rs s,
    s <= e ->
    chain s rs e ->
    Forall (fun r => snd r = Z.min e (fst r + p)) rs ->
    Z.of_nat (List.length rs) = (e - s) / (p + NS_PER_DAY) + 1 /\
    forall i a b,
      nth_error rs i = Some (a, b) ->
      a = s + Z.of_nat i * (p + NS_PER_DAY) /\ b = Z.min e (a + p).
Proof.
  intros Hp. pose proof NS_PER_DAY_pos as HD.
  induction rs as [|[a b] rs IH]; intros s Hse Ht Hall.
  - simpl in Ht. lia.
  - simpl in Ht. destruct Ht as (-> & Hab & Hbe & Ht).
    inversion Hall as [|? ? Hb Hall']; subst. simpl in Hb.
    destruct rs as [|r rs].
    + simpl in Ht. split.
      * simpl. rewrite Z.div_small; lia.
      * intros [|i] a' b'; simpl; [|destruct i; discriminate].
        intros [= <- <-]. split; lia.
    + assert (Hlt : b + NS_PER_DAY <= e).
      { pose proof Ht as Ht2. destruct r as [c d]. simpl in Ht2.
        destruct Ht2 as (Hc & Hcd & Hde & _). lia. }
      assert (Eb : b = s + p) by lia.
      destruct (IH (b + NS_PER_DAY) Hlt Ht Hall') as (Hlen & Hnth).
      split.
      * change (List.length ((s, b) :: r :: rs)) with (S (List.length (r :: rs))).
        rewrite Nat2Z.inj_succ, Hlen.
        replace (e - s) with ((e - (b + NS_PER_DAY)) + 1 * (p + NS_PER_DAY))
          by lia.
        rewrite Z.div_add by lia. lia.
      * intros [|i] a' b'.
        -- simpl. intros [= <- <-]. split; lia.
        -- intros Hi. change (nth_error ((s, b) :: r :: rs) (S i))
             with (nth_error (r :: rs) i) in Hi.
           destruct (Hnth i a' b' Hi) as (Ha' & Hb').
           split; [|exact Hb']. lia.
Qed.

(** X2: with [period = Timedelta(days=d)], [d >= 0] (and small enough for
    the [Timedelta] to exist), and [start <= end], when the sums are
    within the bounds ([start] not before the lower bound, [end + d days]
    and [end + 1 day] not after the upper one), the
    result has [(end - start) // (d + 1 days) + 1] ranges; the [i]-th one
    starts at [start + i * (d + 1) days] and ends [d] days later, or at
    [end] if that comes first.  A full range therefore holds [d + 1]
    dates. *)
Theorem split_timedelta_shape :
  forall (start_date end_date : Timestamp) (d : Z),
    start_date <= end_date ->
    0 <= d ->
    d * NS_PER_DAY <= Timestamp_max ->
    Timestamp_min <= start_date ->
    end_date + d * NS_PER_DAY <= Timestamp_max ->
    end_date + NS_PER_DAY <= Timestamp_max ->
    exists rs,
      (forall fuel, (enough_fuel start_date end_date <= fuel)%nat ->
         split_date_range fuel start_date end_date (Timedelta_days d)
         = Returns rs) /\
      Z.of_nat (List.length rs)
      = (end_date - start_date) / ((d + 1) * NS_PER_DAY) + 1 /\
      forall i a b,
        nth_error rs i = Some (a, b) ->
        a = start_date + Z.of_nat i * ((d + 1) * NS_PER_DAY) /\
        b = Z.min end_date (a + d * NS_PER_DAY) /\
        (b < end_date -> day_of b - day_of a + 1 = d + 1).
Proof.
  intros s e d Hse Hd Hdb Hlo Hhi Hhi'. pose proof NS_PER_DAY_pos as HD.
  destruct (split_days_returns d s e Hd Hdb Hlo Hhi Hhi')
    as (rs & Hrs & Ht & Hall).
  exists rs. split.
  - intros fuel Hf. unfold split_date_range.
    rewrite (split_loop_more_fuel (enough_fuel s e)); [exact Hrs| |exact Hf].
    rewrite Hrs. discriminate.
  - destruct (chain_regular (d * NS_PER_DAY) e ltac:(nia) rs s Hse Ht Hall)
      as (Hlen & Hnth).
    replace ((d + 1) * NS_PER_DAY) with (d * NS_PER_DAY + NS_PER_DAY) by lia.
    split; [exact Hlen|].
    intros i a b Hi. destruct (Hnth i a b Hi) as (Ha & Hb).
    split; [exact Ha|]. split; [exact Hb|].
    intros Hlt. assert (E : b = a + d * NS_PER_DAY) by lia.
    rewrite E. unfold day_of. rewrite Z.div_add by lia. lia.
Qed.

Lemma split_timedelta_shape_witness :
  exists rs,
    split_date_range 302 (midnight 0) (midnight 300) (Timedelta_days 208)
    = Returns rs /\
    Z.of_nat (List.length rs) = 2.
Proof.
  destruct (split_timedelta_shape (midnight 0) (midnight 300) 208)
    as (rs & Hrs & Hlen & _); try (vm_compute; discriminate).
  exists rs. split; [apply Hrs; vm_compute; lia|exact Hlen].
Defined.

End SplitShape.

(** ** What a fetch costs *)

Section Budget.

Import Tushare.

Lemma calls_app t1 t2 : calls (t1 ++ t2) = (calls t1 + calls t2)%nat.
Proof. unfold calls. now rewrite filter_app, length_app. Qed.

Lemma slept_app t1 t2 : slept (t1 ++ t2) = slept t1 + slept t2.
Proof.
  induction t1 as [|[q|d] t1 IH]; simpl; [reflexivity|exact IH|].
  rewrite IH. lia.
Qed.

Lemma failed_attempts_cost q delay k :
  calls (failed_attempts q delay k) = k /\
  slept (failed_attempts q delay k) = Z.of_nat k * delay /\
  Forall (fun ev => ev = Sleep delay \/ ev = Call q) (failed_attempts q delay k).
Proof.
  induction k as [|k (IH1 & IH2 & IH3)]; [repeat split; constructor|].
  split; [|split].
  - change (calls (failed_attempts q delay (S k)))
      with (S (calls (failed_attempts q delay k))). now rewrite IH1.
  - change (slept (failed_attempts q delay (S k)))
      with (delay + slept (failed_attempts q delay k)). rewrite IH2. lia.
  - simpl. constructor; [now right|]. constructor; [now left|exact IH3].
Qed.

(** A retried single-call attempt: between one call and [retries + 1]
    calls of [q], a pause of [delay] seconds before each call but the
    first, and nothing else. *)
Lemma retry_after_cost {A} (f : M A) q delay retries :
  (forall w, snd (f w) = w ++ [Call q]) ->
  (forall w, fst (f w) <> Hangs) ->
  forall w, exists ext,
    snd (retry_after retries delay f w) = w ++ ext /\
    (1 <= calls ext <= S retries)%nat /\
    slept ext = (Z.of_nat (calls ext) - 1) * delay /\
    Forall (fun ev => ev = Sleep delay \/ ev = Call q) ext.
Proof.
  intros Hone Hends w.
  destruct (retry_after_spec f q delay Hone Hends retries w)
    as (k & Hk & _ & Hr & _).
  destruct (failed_attempts_cost q delay k) as (Hc & Hs & Hall).
  exists (failed_attempts q delay k ++ [Call q]).
  rewrite Hr, calls_app, slept_app, Hc, Hs. simpl.
  split; [reflexivity|]. split; [change (calls [Call q]) with 1%nat; lia|].
  split; [change (calls [Call q]) with 1%nat; lia|].
  apply Forall_app. split; [exact Hall|]. constructor; [now right|constructor].
Qed.

Variable api : DataApi.
Variable symbol : string.
Variable frequency : string.

Let chunk : Timestamp * Timestamp -> M (list Bar.t) :=
  fun '(s, e) => fetch_historical_data_high_freq api symbol s e frequency.

Let allowed (periods : list (Timestamp * Timestamp)) (ev : event) : Prop :=
  ev = Sleep 10 \/
  exists a b, In (a, b) periods /\
              ev = Call (ReqProBar (convert_symbol symbol) (day_of a) (day_of b)
                                   frequency).

Lemma frames_cost periods :
  forall w, exists ext,
    snd (for_each chunk periods w) = w ++ ext /\
    (calls ext <= 5 * List.length periods)%nat /\
    0 <= slept ext <= 40 * Z.of_nat (List.length periods) /\
    Forall (allowed periods) ext.
Proof.
  induction periods as [|[a b] periods IH]; intros w.
  - exists []. unfold calls. simpl. rewrite app_nil_r.
    split; [reflexivity|]. split; [lia|]. split; [lia|]. apply Forall_nil.
  - destruct (retry_after_cost (high_freq_attempt api symbol a b frequency)
                (ReqProBar (convert_symbol symbol) (day_of a) (day_of b)
                           frequency) 10
                (Nat.pred (Pos.to_nat 5))
                (high_freq_attempt_trace api symbol a b frequency)
                (high_freq_attempt_ends api symbol a b frequency) w)
      as (ext1 & Ht1 & Hc1 & Hs1 & Hall1).
    change (Nat.pred (Pos.to_nat 5)) with 4%nat in *.
    change (retry_after 4 10 (high_freq_attempt api symbol a b frequency) w)
      with (chunk (a, b) w) in Ht1.
    assert (Hall1' : Forall (allowed ((a, b) :: periods)) ext1).
    { eapply Forall_impl; [|exact Hall1]. intros ev [->| ->]; [now left|].
      right. exists a, b. split; [now left|reflexivity]. }
    change (for_each chunk ((a, b) :: periods))
      with (y <- chunk (a, b) ;; ys <- for_each chunk periods ;; ret (y :: ys)).
    unfold bind at 1.
    destruct (chunk (a, b) w) as [[fr|err|] w1]; simpl in Ht1; subst w1.
    + destruct (IH (w ++ ext1)) as (ext2 & Ht2 & Hc2 & Hs2 & Hall2).
      exists (ext1 ++ ext2). split; [|split; [|split]].
      * rewrite app_assoc, <- Ht2. unfold bind.
        now destruct (for_each chunk periods (w ++ ext1)) as [[frs|err|] w2].
      * rewrite calls_app. simpl List.length. lia.
      * rewrite slept_app. simpl List.length. lia.
      * apply Forall_app. split; [exact Hall1'|].
        eapply Forall_impl; [|exact Hall2].
        intros ev [->|(a' & b' & Hin & ->)]; [now left|].
        right. exists a', b'. split; [now right|reflexivity].
    + exists ext1. simpl. split; [reflexivity|].
      split; [simpl List.length; lia|]. split; [simpl List.length; lia|].
      exact Hall1'.
    + exists ext1. simpl. split; [reflexivity|].
      split; [simpl List.length; lia|]. split; [simpl List.length; lia|].
      exact Hall1'.
Qed.

(** X3: an intraday fetch over [n] chunks makes at most [5 n] provider
    calls and sleeps at most [40 n] seconds; it only ever calls the
    intraday endpoint, for the converted symbol, the given frequency and
    the window of one of the chunks, and only ever sleeps 10 seconds at a
    time; what happened before is left as it was.  When the split raises
    instead of returning chunks, nothing is called and nothing is slept;
    the split always does one or the other. *)
Theorem intraday_fetch_cost :
  forall (today : Timestamp) (start_date end_date : option Timestamp)
         (w : trace),
    is_minute_frequency frequency = true ->
    let start := match start_date with None => floor_2010 | Some d => d end in
    let stop := match end_date with None => today | Some d => d end in
    exists ext,
      snd (fetch_historical_data api today (Some symbol) start_date end_date
             None (Some frequency) None w) = w ++ ext /\
      match Time.split_date_range (Time.enough_fuel start stop) start stop
              (Timedelta_days (max_days_per_iteration frequency)) with
      | Returns periods =>
          (calls ext <= 5 * List.length periods)%nat /\
          0 <= slept ext <= 40 * Z.of_nat (List.length periods) /\
          Forall (fun ev =>
                    ev = Sleep 10 \/
                    exists a b,
                      In (a, b) periods /\
                      ev = Call (ReqProBar (convert_symbol symbol)
                                           (day_of a) (day_of b) frequency))
                 ext
      | Raises _ => ext = []
      | Hangs => False
      end.
Proof.
  intros today sd ed w Hf start stop.
  pose proof (split_loop_stops
                (Timedelta_days (max_days_per_iteration frequency)) stop
                (nonneg_Timedelta_days _ (max_days_nonneg _ Hf))
                (Time.enough_fuel start stop) start []) as Hstop.
  enter_history.
  rewrite (minute_frequency_not_daily _ Hf), Hf.
  fold start stop. unfold Time.split_date_range.
  destruct (Time.split_loop _ stop _ start []) as [periods|err|] eqn:Hsplit.
  - destruct (frames_cost periods w) as (ext & Ht & Hc & Hs & Hall).
    exists ext. split; [|split; [exact Hc|split; [exact Hs|exact Hall]]].
    unfold bind at 1. fold chunk.
    destruct (for_each chunk periods w) as [[frames|err|] w1];
      simpl in Ht |- *; subst w1; try reflexivity.
    unfold bind. now destruct frames.
  - exists []. split; [simpl; now rewrite app_nil_r|reflexivity].
  - exfalso. apply Hstop; [|reflexivity]. unfold Time.enough_fuel. lia.
Qed.

End Budget.

Section BudgetExamples.

Import Tushare.

Lemma intraday_fetch_cost_witness :
  exists ext,
    snd (fetch_historical_data api_flaky (midnight 20000)
           (Some "000001"%string) (Some (midnight 0)) (Some (midnight 300))
           None (Some "5min"%string) None []) = [] ++ ext /\
    (calls ext <= 5 * 2)%nat.
Proof.
  destruct (intraday_fetch_cost api_flaky "000001"%string "5min"%string
              (midnight 20000) (Some (midnight 0)) (Some (midnight 300)) []
              eq_refl)
    as (ext & H1 & H2).
  exists ext. split; [exact H1|].
  change (Time.split_date_range
            (Time.enough_fuel (midnight 0) (midnight 300))
            (midnight 0) (midnight 300)
            (Timedelta_days (Tushare.max_days_per_iteration "5min")))
    with (Returns [(midnight 0, midnight 208); (midnight 209, midnight 300)])
    in H2.
  exact (proj1 H2).
Defined.

End BudgetExamples.

(** ** Symbols as texts *)

Section Symbols.

Import Tushare.

Lemma string_length_append (a b : string) :
  String.length (a ++ b) = (String.length a + String.length b)%nat.
Proof. induction a as [|c a IH]; simpl; [reflexivity|now rewrite IH]. Qed.

Lemma substring_0_length n (s : string) :
  String.length (substring 0 n s) = Nat.min n (String.length s).
Proof.
  revert s. induction n as [|n IH]; intros [|c s]; simpl; try reflexivity.
  now rewrite IH.
Qed.

Lemma substring_0_append (a b : string) :
  substring 0 (String.length a) (a ++ b) = a.
Proof.
  induction a as [|c a IH]; simpl; [now destruct b|now rewrite IH].
Qed.

Lemma append_same_length_inj (a b x y : string) :
  (a ++ x)%string = (b ++ y)%string ->
  String.length x = String.length y ->
  a = b.
Proof.
  revert b. induction a as [|c a IH]; intros [|d b]; simpl; intros H Hl.
  - reflexivity.
  - subst x. simpl in Hl. rewrite string_length_append in Hl. lia.
  - subst y. simpl in Hl. rewrite string_length_append in Hl. lia.
  - injection H as -> H. f_equal. now apply IH.
Qed.

Lemma convert_symbol_suffix symbol :
  exists suffix,
    convert_symbol symbol = (symbol ++ suffix)%string /\
    String.length suffix = 3%nat.
Proof.
  unfold convert_symbol. destruct (prefix "6" symbol); eexists; split;
    reflexivity.
Qed.

(** X4: the provider code keeps the symbol apart: two symbols with the
    same converted code are the same symbol, and the code is always three
    characters longer than the symbol. *)
Theorem convert_symbol_injective :
  forall a b : string,
    (convert_symbol a = convert_symbol b -> a = b) /\
    String.length (convert_symbol a) = (String.length a + 3)%nat.
Proof.
  intros a b.
  destruct (convert_symbol_suffix a) as (x & Ea & Hx).
  destruct (convert_symbol_suffix b) as (y & Eb & Hy).
  split.
  - rewrite Ea, Eb. intros H. apply (append_same_length_inj a b x y H). congruence.
  - rewrite Ea, string_length_append, Hx. reflexivity.
Qed.

Lemma convert_symbol_injective_witness :
  (substring 0 6 "600000.SH" = "600000")%string /\
  String.length (convert_symbol "600000") = 9%nat.
Proof.
  split.
  - apply (proj1 (convert_symbol_injective (substring 0 6 "600000.SH")
                    "600000"%string)).
    reflexivity.
  - apply (proj2 (convert_symbol_injective "600000"%string "000001"%string)).
Defined.

(** X5: the symbol of a returned row is the first six characters of the
    provider code; taken from the code the adapter sent, it is the
    caller's symbol exactly when that symbol has six characters (a shorter
    one comes back with part of the suffix, a longer one cut). *)
Theorem symbol_round_trip :
  forall symbol : string,
    substring 0 6 (convert_symbol symbol) = symbol <->
    String.length symbol = 6%nat.
Proof.
  intros symbol. destruct (convert_symbol_suffix symbol) as (x & E & Hx).
  rewrite E. split.
  - intros H. apply (f_equal String.length) in H.
    rewrite substring_0_length, string_length_append, Hx in H. lia.
  - intros H. rewrite <- H. apply substring_0_append.
Qed.

Lemma symbol_round_trip_witness :
  substring 0 6 (convert_symbol "600000") = "600000"%string /\
  substring 0 6 (convert_symbol "6000") <> "6000"%string.
Proof.
  split.
  - apply (proj2 (symbol_round_trip "600000"%string)). reflexivity.
  - intros H. apply (proj1 (symbol_round_trip "6000"%string)) in H.
    discriminate.
Defined.

End Symbols.

(** ** Paths through [fetch] *)

Section RetryRecovery.

Context {A : Type}.
Variable f : M A.
Variable q : request.
Variable delay : Z.
Hypothesis f_calls_once : forall w, snd (f w) = w ++ [Call q].
Hypothesis f_ends : forall w, fst (f w) <> Hangs.

(** The first attempt that returns decides: the attempts before it are
    each followed by a pause, and none is made after it. *)
Lemma retry_after_recovers retries w k a :
  (k <= retries)%nat ->
  (forall j, (j < k)%nat ->
             exists e, fst (f (w ++ failed_attempts q delay j)) = Raises e) ->
  fst (f (w ++ failed_attempts q delay k)) = Returns a ->
  retry_after retries delay f w
  = (Returns a, w ++ failed_attempts q delay k ++ [Call q]).
Proof.
  intros Hk Hfail Hret.
  destruct (retry_after_spec f q delay f_calls_once f_ends retries w)
    as (k' & Hk' & Hj & Hr & Hl).
  assert (k' = k) as ->.
  { destruct (Nat.lt_trichotomy k' k) as [Hlt|[Heq|Hgt]]; [|exact Heq|].
    - destruct (Hfail k' Hlt) as (e & He).
      assert (k' = retries) by (apply Hl; eauto). lia.
    - destruct (Hj k Hgt) as (e & He). congruence. }
  now rewrite Hr, Hret.
Qed.

End RetryRecovery.

Section Paths.

Import Tushare.

Variable api : DataApi.
Variable today : Timestamp.

Lemma adjust_factor_attempt_eq symbol s e w :
  adjust_factor_attempt api (Some symbol) (Some s) (Some e) w =
  (match adj_factor api w (convert_symbol symbol) (convert_date s)
                    (convert_date e) with
   | inl err => Raises err
   | inr data =>
       Returns (Factors (map normalize_adjust_factor
                             (sort_values FactorRow.trade_date data)))
   end,
   w ++ [Call (ReqAdjFactor (convert_symbol symbol) (convert_date s)
                            (convert_date e))]).
Proof.
  unfold adjust_factor_attempt, bind, getattr, ret, call_adj_factor.
  now destruct (adj_factor api w (convert_symbol symbol) (convert_date s)
                           (convert_date e)).
Qed.

Lemma adjust_factor_attempt_trace symbol s e w :
  snd (adjust_factor_attempt api (Some symbol) (Some s) (Some e) w) =
  w ++ [Call (ReqAdjFactor (convert_symbol symbol) (convert_date s)
                           (convert_date e))].
Proof. now rewrite adjust_factor_attempt_eq. Qed.

Lemma adjust_factor_attempt_ends symbol s e w :
  fst (adjust_factor_attempt api (Some symbol) (Some s) (Some e) w) <> Hangs.
Proof.
  rewrite adjust_factor_attempt_eq. simpl.
  now destruct (adj_factor api w (convert_symbol symbol) (convert_date s)
                           (convert_date e)).
Qed.

(** X6: a daily fetch asks for the whole span in one window, however
    long: it makes between one and five calls, all of the daily endpoint
    for that window, with a pause of 10 seconds before each call but the
    first.  An adjustment-factor fetch with its symbol and dates given
    does the same on its endpoint, whatever [trade_date], [frequency] and
    [fields] are. *)
Theorem single_window_fetch_cost :
  forall (symbol : string) (start_date end_date : option Timestamp) (w : trace),
    let start := match start_date with None => floor_2010 | Some d => d end in
    let stop := match end_date with None => today | Some d => d end in
    (exists ext,
        snd (fetch api today "history" (Some symbol) start_date end_date None
                   (Some "daily"%string) None w) = w ++ ext /\
        (1 <= calls ext <= 5)%nat /\
        slept ext = (Z.of_nat (calls ext) - 1) * 10 /\
        Forall (fun ev => ev = Sleep 10 \/
                          ev = Call (ReqDaily (convert_symbol symbol)
                                              (convert_date start)
                                              (convert_date stop)))
               ext) /\
    (forall s e trade_date frequency fields,
      exists ext,
        snd (fetch api today "adjust_factor" (Some symbol) (Some s) (Some e)
                   trade_date frequency fields w) = w ++ ext /\
        (1 <= calls ext <= 5)%nat /\
        slept ext = (Z.of_nat (calls ext) - 1) * 10 /\
        Forall (fun ev => ev = Sleep 10 \/
                          ev = Call (ReqAdjFactor (convert_symbol symbol)
                                                  (convert_date s)
                                                  (convert_date e)))
               ext).
Proof.
  intros symbol sd ed w start stop. split.
  - destruct (retry_after_cost (daily_attempt api symbol start stop)
                (ReqDaily (convert_symbol symbol) (convert_date start)
                          (convert_date stop)) 10 4
                (daily_attempt_trace api symbol start stop)
                (daily_attempt_ends api symbol start stop) w)
      as (ext & Ht & Hc & Hs & Hall).
    exists ext. split; [|split; [exact Hc|split; [exact Hs|exact Hall]]].
    change (fetch api today "history" (Some symbol) sd ed None
                  (Some "daily"%string) None)
      with (fetch_historical_data api today (Some symbol) sd ed None
              (Some "daily"%string) None).
    enter_history. change (String.eqb "daily" "daily") with true. cbv iota.
    fold start stop. unfold bind, fetch_historical_data_daily, retry.
    change (Nat.pred (Pos.to_nat 5)) with 4%nat.
    now destruct (retry_after 4 10 (daily_attempt api symbol start stop) w)
      as [[rows|err|] w1].
  - intros s e td fr fields.
    exact (retry_after_cost
             (adjust_factor_attempt api (Some symbol) (Some s) (Some e))
             (ReqAdjFactor (convert_symbol symbol) (convert_date s)
                           (convert_date e)) 10 4
             (adjust_factor_attempt_trace symbol s e)
             (adjust_factor_attempt_ends symbol s e) w).
Qed.

(** X7: transient failures are invisible in the result: when the first
    [k <= 4] attempts of a daily fetch fail and the next one is answered,
    the fetch returns the table of that answer, after [k] pauses. *)
Theorem daily_fetch_recovers :
  forall (symbol : string) (start_date end_date : option Timestamp)
         (w : trace) (k : nat) (data : list DailyRow.t),
    let start := match start_date with None => floor_2010 | Some d => d end in
    let stop := match end_date with None => today | Some d => d end in
    let code := convert_symbol symbol in
    let q := ReqDaily code (convert_date start) (convert_date stop) in
    (k <= 4)%nat ->
    (forall j, (j < k)%nat ->
       exists err,
         daily api (w ++ failed_attempts q 10 j) code
               (convert_date start) (convert_date stop) = inl err) ->
    daily api (w ++ failed_attempts q 10 k) code
          (convert_date start) (convert_date stop) = inr data ->
    fetch_historical_data api today (Some symbol) start_date end_date None
      (Some "daily"%string) None w
    = (Returns (Bars (map normalize_daily
                          (sort_values DailyRow.trade_date data))),
       w ++ failed_attempts q 10 k ++ [Call q]).
Proof.
  intros symbol sd ed w k data start stop code q Hk Hfail Hok.
  enter_history. change (String.eqb "daily" "daily") with true. cbv iota.
  fold start stop. unfold bind at 1, fetch_historical_data_daily, retry.
  change (Nat.pred (Pos.to_nat 5)) with 4%nat.
  rewrite (retry_after_recovers (daily_attempt api symbol start stop) q 10
             (daily_attempt_trace api symbol start stop)
             (daily_attempt_ends api symbol start stop) 4 w k
             (map normalize_daily (sort_values DailyRow.trade_date data)) Hk).
  - reflexivity.
  - intros j Hj. destruct (Hfail j Hj) as (err & He).
    exists err. now apply daily_attempt_raises.
  - rewrite daily_attempt_eq. fold code. now rewrite Hok.
Qed.

End Paths.

Section PathsExamples.

Import Tushare.

Lemma daily_fetch_recovers_witness :
  let q := ReqDaily "600000.SH" 100 100 in
  fetch_historical_data api_recovering (midnight 20000)
    (Some "600000"%string) (Some (midnight 100)) (Some (midnight 100)) None
    (Some "daily"%string) None []
  = (Returns (Bars [normalize_daily (daily_row 100 (CInt 1) (CInt 1))]),
     [Call q; Sleep 10; Call q; Sleep 10; Call q]).
Proof.
  apply (daily_fetch_recovers api_recovering (midnight 20000)
           "600000"%string (Some (midnight 100)) (Some (midnight 100)) [] 2
           [daily_row 100 (CInt 1) (CInt 1)]).
  - lia.
  - intros j Hj. exists (ProviderError "busy").
    destruct j as [|[|j]]; [reflexivity|reflexivity|lia].
  - reflexivity.
Defined.

End PathsExamples.

(** ** Refusals *)

Section Refusals.

Import Tushare.

Variable api : DataApi.
Variable today : Timestamp.

(** X8: on the historical-price dataset a missing symbol, a missing
    frequency, a [fields] filter or a [trade_date] is refused with an
    [AssertionError] before anything is asked of the provider: nothing is
    called and nothing is slept. *)
Theorem history_arguments_checked_first :
  forall dataset symbol start_date end_date trade_date frequency fields w,
    dataset = "history"%string \/ dataset = "ohlcv"%string ->
    symbol = None \/ frequency = None \/ fields <> None \/ trade_date <> None ->
    fetch api today dataset symbol start_date end_date trade_date frequency
          fields w
    = (Raises AssertionError, w).
Proof.
  intros dataset symbol sd ed td fr fields w Hd Hbad.
  assert (E : fetch api today dataset symbol sd ed td fr fields
              = fetch_historical_data api today symbol sd ed td fr fields)
    by (destruct Hd as [-> | ->]; reflexivity).
  rewrite E. unfold fetch_historical_data.
  destruct symbol as [sym|]; [|reflexivity].
  destruct fr as [freq|]; [|reflexivity].
  destruct fields as [fl|]; [reflexivity|].
  destruct td as [d|]; [reflexivity|].
  destruct Hbad as [H|[H|[H|H]]]; congruence.
Qed.

(** X9: a dataset name other than [history], [ohlcv] and [adjust_factor]
    is refused with a [ValueError] that names it, and on the
    historical-price dataset so is a frequency other than [daily] and the
    five minute frequencies (names are compared as written, so [Daily] or
    [3min] are refused); in both cases the provider is not called. *)
Theorem unsupported_names_refused :
  (forall dataset symbol start_date end_date trade_date frequency fields w,
      dataset <> "history"%string -> dataset <> "ohlcv"%string ->
      dataset <> "adjust_factor"%string ->
      fetch api today dataset symbol start_date end_date trade_date frequency
            fields w
      = (Raises (ValueError ("unsupported dataset: " ++ dataset)), w)) /\
  (forall dataset symbol start_date end_date frequency w,
      dataset = "history"%string \/ dataset = "ohlcv"%string ->
      ~ In frequency ["daily"; "1min"; "5min"; "15min"; "30min"; "60min"]%string ->
      fetch api today dataset (Some symbol) start_date end_date None
            (Some frequency) None w
      = (Raises (ValueError ("Unsupported frequency: " ++ frequency)), w)).
Proof.
  split.
  - intros dataset symbol sd ed td fr fields w H1 H2 H3.
    unfold fetch.
    apply String.eqb_neq in H1, H2, H3. now rewrite H1, H2, H3.
  - intros dataset symbol sd ed frequency w Hd Hnot.
    assert (E : fetch api today dataset (Some symbol) sd ed None
                      (Some frequency) None
                = fetch_historical_data api today (Some symbol) sd ed None
                      (Some frequency) None)
      by (destruct Hd as [-> | ->]; reflexivity).
    rewrite E. enter_history.
    assert (Hdaily : String.eqb frequency "daily" = false).
    { apply String.eqb_neq. intros ->. apply Hnot. now left. }
    assert (Hmin : is_minute_frequency frequency = false).
    { destruct (is_minute_frequency frequency) eqn:Hm; [|reflexivity].
      exfalso. apply Hnot. right. now apply minute_frequency_cases. }
    now rewrite Hdaily, Hmin.
Qed.

(** X10: an intraday fetch over a reversed span has no chunk to fetch: it
    fails with the [ValueError] of [pd.concat] on an empty list, without
    calling the provider.  (A daily fetch over the same span calls the
    provider.) *)
Theorem intraday_fetch_reversed_span :
  forall (symbol : string) (start_date end_date : option Timestamp)
         (frequency : string) (w : trace),
    is_minute_frequency frequency = true ->
    let start := match start_date with None => floor_2010 | Some d => d end in
    let stop := match end_date with None => today | Some d => d end in
    stop < start ->
    fetch_historical_data api today (Some symbol) start_date end_date None
      (Some frequency) None w
    = (Raises (ValueError "No objects to concatenate"), w).
Proof.
  intros symbol sd ed frequency w Hf start stop Hrev.
  enter_history. rewrite (minute_frequency_not_daily _ Hf), Hf.
  fold start stop.
  unfold Time.split_date_range, Time.enough_fuel.
  rewrite split_loop_empty by exact Hrev.
  reflexivity.
Qed.

End Refusals.

Section RefusalsExamples.

Import Tushare.

Lemma history_arguments_checked_first_witness :
  fetch api_steady (midnight 20000) "ohlcv" (Some "600000"%string) None None
        (Some (midnight 19000)) (Some "daily"%string) None []
  = (Raises AssertionError, []).
Proof.
  apply (history_arguments_checked_first api_steady (midnight 20000) "ohlcv"
           (Some "600000"%string) None None (Some (midnight 19000))
           (Some "daily"%string) None []).
  - right. reflexivity.
  - right. right. right. discriminate.
Defined.

Lemma unsupported_names_refused_witness :
  fetch api_steady (midnight 20000) "adjust-factor" None None None None None
        None []
  = (Raises (ValueError "unsupported dataset: adjust-factor"), []) /\
  fetch api_steady (midnight 20000) "history" (Some "600000"%string)
        None None None (Some "Daily"%string) None []
  = (Raises (ValueError "Unsupported frequency: Daily"), []).
Proof.
  split.
  - apply (proj1 (unsupported_names_refused api_steady (midnight 20000))
             "adjust-factor"%string None None None None None None []);
      discriminate.
  - apply (proj2 (unsupported_names_refused api_steady (midnight 20000))
             "history"%string "600000"%string None None "Daily"%string []).
    + left. reflexivity.
    + simpl. intros [H|[H|[H|[H|[H|[H|[]]]]]]]; discriminate.
Defined.

Lemma intraday_fetch_reversed_span_witness :
  fetch_historical_data api_steady (midnight 20000) (Some "600000"%string)
    (Some (midnight 20001)) None None (Some "1min"%string) None []
  = (Raises (ValueError "No objects to concatenate"), []).
Proof.
  apply (intraday_fetch_reversed_span api_steady (midnight 20000)
           "600000"%string (Some (midnight 20001)) None "1min"%string []
           eq_refl).
  reflexivity.
Defined.

End RefusalsExamples.

(** ** Tables and the answers they come from *)

Section Answers.

Import Tushare.

Variable api : DataApi.
Variable today : Timestamp.

Lemma retry_after_first_try {A} (f : M A) delay retries w a w' :
  f w = (Returns a, w') -> retry_after retries delay f w = (Returns a, w').
Proof.
  intros H. destruct retries; [simpl|rewrite retry_after_S]; now rewrite H.
Qed.

(** When every intraday call is answered, each chunk costs one call. *)
Lemma frames_first_try symbol frequency periods :
  (forall w s e, exists data,
      pro_bar api w (convert_symbol symbol) s e frequency = inr data) ->
  forall w, exists frames,
    for_each (fun '(s, e) =>
                fetch_historical_data_high_freq api symbol s e frequency)
             periods w
    = (Returns frames,
       w ++ map (fun '(s, e) =>
                   Call (ReqProBar (convert_symbol symbol)
                                   (day_of s) (day_of e) frequency))
                periods) /\
    List.length frames = List.length periods.
Proof.
  intros Hok. induction periods as [|[a b] periods IH]; intros w.
  - exists []. simpl. now rewrite app_nil_r.
  - destruct (Hok w (day_of a) (day_of b)) as (data & Hdata).
    destruct (IH (w ++ [Call (ReqProBar (convert_symbol symbol)
                                        (day_of a) (day_of b) frequency)]))
      as (frames & Hf & Hlen).
    eexists (_ :: frames). split; [|simpl; now rewrite Hlen].
    simpl for_each. unfold bind at 1.
    unfold fetch_historical_data_high_freq at 1, retry.
    erewrite retry_after_first_try
      by (rewrite high_freq_attempt_eq, Hdata; reflexivity).
    unfold bind. rewrite Hf. simpl. now rewrite <- app_assoc.
Qed.

(** X11: when the provider answers every intraday call, a fetch over a
    span with [start <= end] whose sums are within the bounds of
    [pd.Timestamp] returns a table after exactly one call per chunk, made
    in the order of the chunks, and no pause.  When [start + period] is
    out of bounds, the fetch raises before any call. *)
Theorem intraday_fetch_first_try :
  forall (symbol : string) (start_date end_date : option Timestamp)
         (frequency : string) (w : trace),
    is_minute_frequency frequency = true ->
    let start := match start_date with None => floor_2010 | Some d => d end in
    let stop := match end_date with None => today | Some d => d end in
    let period := Timedelta_days (max_days_per_iteration frequency) in
    start <= stop ->
    (Timestamp_min <= start ->
     stop + max_days_per_iteration frequency * NS_PER_DAY <= Timestamp_max ->
     (forall w' s e, exists data,
         pro_bar api w' (convert_symbol symbol) s e frequency = inr data) ->
     exists periods rows,
       Time.split_date_range (Time.enough_fuel start stop) start stop period
       = Returns periods /\
       periods <> [] /\
       fetch_historical_data api today (Some symbol) start_date end_date None
         (Some frequency) None w
       = (Returns (Bars rows),
          w ++ map (fun '(s, e) =>
                      Call (ReqProBar (convert_symbol symbol)
                                      (day_of s) (day_of e) frequency))
                   periods)) /\
    (add_period start period = None ->
     fetch_historical_data api today (Some symbol) start_date end_date None
       (Some frequency) None w
     = (Raises OutOfBoundsDatetime, w)).
Proof.
  intros symbol sd ed frequency w Hf start stop period Hse.
  pose proof NS_PER_DAY_pos as HD.
  assert (Hdays : 1 <= max_days_per_iteration frequency).
  { apply minute_frequency_cases in Hf. simpl in Hf.
    destruct Hf as [<-|[<-|[<-|[<-|[<-|[]]]]]]; vm_compute; discriminate. }
  assert (Hsmall : max_days_per_iteration frequency * NS_PER_DAY
                   <= Timestamp_max).
  { apply minute_frequency_cases in Hf. simpl in Hf.
    destruct Hf as [<-|[<-|[<-|[<-|[<-|[]]]]]]; vm_compute; discriminate. }
  split.
  - intros Hlo Hhi Hok.
    destruct (split_days_returns (max_days_per_iteration frequency) start stop)
      as (periods & Hsplit & Ht & _); [lia|exact Hsmall|exact Hlo|exact Hhi|nia|].
    destruct (frames_first_try symbol frequency periods Hok w)
      as (frames & Hframes & Hlen).
    exists periods, (List.concat frames). split; [exact Hsplit|].
    split; [exact (chain_nonempty _ _ _ Ht Hse)|].
    enter_history. rewrite (minute_frequency_not_daily _ Hf), Hf.
    fold start stop. unfold Time.split_date_range. rewrite Hsplit.
    unfold bind at 1. rewrite Hframes. unfold bind.
    destruct frames as [|fr frames]; [|reflexivity].
    destruct periods; [simpl in Ht; lia|discriminate].
  - intros Hnone.
    enter_history. rewrite (minute_frequency_not_daily _ Hf), Hf.
    fold start stop period. unfold Time.split_date_range, Time.enough_fuel.
    now rewrite split_loop_raises.
Qed.

(** The frames of a returned list comprehension are, chunk by chunk, the
    sorted and normalised rows of an answer for that chunk's window. *)
Lemma frames_answers symbol frequency periods :
  forall w frames w',
    for_each (fun '(s, e) =>
                fetch_historical_data_high_freq api symbol s e frequency)
             periods w = (Returns frames, w') ->
    exists answers,
      Forall2 (fun '(s, e) data =>
                 exists w0,
                   pro_bar api w0 (convert_symbol symbol)
                           (day_of s) (day_of e) frequency
                   = inr data)
              periods answers /\
      frames = map (fun data =>
                      map normalize_high_freq
                          (sort_values MinuteRow.trade_time data))
                   answers.
Proof.
  induction periods as [|[a b] periods IH]; intros w frames w'; simpl.
  - intros [= <- _]. exists []. split; [constructor|reflexivity].
  - unfold bind.
    destruct (fetch_historical_data_high_freq api symbol a b frequency w)
      as [[fr|err|] w1] eqn:Ec; try discriminate.
    destruct (for_each _ periods w1) as [[frs|err|] w2] eqn:Er; try discriminate.
    intros [= <- _].
    unfold fetch_historical_data_high_freq, retry in Ec.
    apply retry_after_returns in Ec. destruct Ec as (w0 & Ec).
    rewrite high_freq_attempt_eq in Ec.
    destruct (pro_bar api w0 (convert_symbol symbol) (day_of a) (day_of b)
                      frequency)
      as [err|data] eqn:Ed; [discriminate|].
    injection Ec as <- _.
    destruct (IH _ _ _ Er) as (answers & Hall & ->).
    exists (data :: answers). split; [|reflexivity].
    constructor; [now exists w0|exact Hall].
Qed.

Lemma concat_map_perm {X Y} (g : X -> Y) (h : list X -> list X) ls :
  (forall l, Permutation (h l) l) ->
  Permutation (List.concat (map (fun l => map g (h l)) ls))
              (map g (List.concat ls)).
Proof.
  intros Hh. induction ls as [|l ls IH]; simpl; [reflexivity|].
  rewrite map_app. apply Permutation_app; [|exact IH].
  apply Permutation_map, Hh.
Qed.

(** X12: the rows of a returned intraday table are the rows the provider
    answered, one answer per chunk, normalised: none is dropped (also not
    one outside the window asked for, or a repeated one) and none is
    added. *)
Theorem intraday_rows_are_provider_rows :
  forall (symbol : string) (start_date end_date : option Timestamp)
         (frequency : string) (w w' : trace) (rows : list Bar.t),
    is_minute_frequency frequency = true ->
    let start := match start_date with None => floor_2010 | Some d => d end in
    let stop := match end_date with None => today | Some d => d end in
    fetch_historical_data api today (Some symbol) start_date end_date None
      (Some frequency) None w
    = (Returns (Bars rows), w') ->
    exists periods answers,
      Time.split_date_range (Time.enough_fuel start stop) start stop
        (Timedelta_days (max_days_per_iteration frequency))
      = Returns periods /\
      Forall2 (fun '(s, e) data =>
                 exists w0,
                   pro_bar api w0 (convert_symbol symbol)
                           (day_of s) (day_of e) frequency
                   = inr data)
              periods answers /\
      Permutation rows (map normalize_high_freq (List.concat answers)) /\
      List.length rows = List.length (List.concat answers).
Proof.
  intros symbol sd ed frequency w w' rows Hf start stop H.
  enter_history_in H.
  rewrite (minute_frequency_not_daily _ Hf), Hf in H. fold start stop in H.
  destruct (Time.split_date_range _ start stop _) as [periods|err|] eqn:Hsplit;
    [|discriminate..].
  unfold bind in H.
  destruct (for_each _ periods w) as [[frames|err|] w1] eqn:Ef;
    try discriminate.
  destruct frames as [|fr frames]; [discriminate|].
  cbn [concat_frames ret] in H. injection H as <- _.
  destruct (frames_answers _ _ _ _ _ _ Ef) as (answers & Hall & E).
  exists periods, answers. split; [reflexivity|]. split; [exact Hall|].
  assert (Hperm : Permutation (List.concat (fr :: frames))
                              (map normalize_high_freq (List.concat answers))).
  { rewrite E. apply (concat_map_perm normalize_high_freq
                        (sort_values MinuteRow.trade_time)).
    intros l. apply sort_values_perm. }
  split; [exact Hperm|].
  etransitivity; [exact (Permutation_length Hperm)|apply length_map].
Qed.

(** X13: a returned adjustment-factor table comes from a call that had
    its symbol and both dates; its rows are the normalised rows of one
    provider answer for that window, all of them, in ascending order of
    date. *)
Theorem adjust_factor_table :
  forall symbol start_date end_date trade_date frequency fields w df w',
    fetch api today "adjust_factor" symbol start_date end_date trade_date
          frequency fields w
    = (Returns df, w') ->
    exists sym s e w0 data rows,
      symbol = Some sym /\ start_date = Some s /\ end_date = Some e /\
      adj_factor api w0 (convert_symbol sym) (convert_date s)
                 (convert_date e) = inr data /\
      df = Factors rows /\
      Permutation rows (map normalize_adjust_factor data) /\
      StronglySorted (fun a b => Factor.date a <= Factor.date b) rows.
Proof.
  intros symbol sd ed td fr fields w df w' H.
  change (fetch api today "adjust_factor" symbol sd ed td fr fields)
    with (fetch_adjust_factor api symbol sd ed td fr fields) in H.
  unfold fetch_adjust_factor, retry in H.
  apply retry_after_returns in H. destruct H as (w0 & H).
  destruct symbol as [sym|]; [|discriminate].
  destruct sd as [s|]; [|discriminate].
  destruct ed as [e|]; [|discriminate].
  rewrite adjust_factor_attempt_eq in H.
  destruct (adj_factor api w0 (convert_symbol sym) (convert_date s)
                       (convert_date e)) as [err|data] eqn:Ed;
    [discriminate|].
  injection H as <- _.
  exists sym, s, e, w0, data,
    (map normalize_adjust_factor (sort_values FactorRow.trade_date data)).
  do 3 (split; [reflexivity|]). split; [exact Ed|]. split; [reflexivity|].
  split.
  - apply Permutation_map, sort_values_perm.
  - pose proof (sort_values_sorted FactorRow.trade_date data) as Hs.
    induction Hs as [|r l Hs IH Hle]; simpl; constructor; [exact IH|].
    rewrite Forall_forall in Hle |- *.
    intros x Hx. apply in_map_iff in Hx. destruct Hx as (r' & <- & Hr').
    simpl. now apply Hle.
Qed.

End Answers.

Section AnswersExamples.

Import Tushare.

Lemma intraday_fetch_first_try_witness :
  (exists periods rows,
      Time.split_date_range
        (Time.enough_fuel (midnight 0) (midnight 300))
        (midnight 0) (midnight 300)
        (Timedelta_days (max_days_per_iteration "5min")) = Returns periods /\
      periods <> [] /\
      fetch_historical_data api_steady (midnight 20000) (Some "000001"%string)
        (Some (midnight 0)) (Some (midnight 300)) None (Some "5min"%string)
        None []
      = (Returns (Bars rows),
         [] ++ map (fun '(s, e) =>
                      Call (ReqProBar (convert_symbol "000001")
                                      (day_of s) (day_of e) "5min"))
                   periods)) /\
  fetch_historical_data api_steady (midnight 20000) (Some "000001"%string)
    (Some (Timestamp_of 2262 4 1)) (Some (Timestamp_of 2262 4 11)) None
    (Some "5min"%string) None []
  = (Raises OutOfBoundsDatetime, []).
Proof.
  split.
  - apply (proj1 (intraday_fetch_first_try api_steady (midnight 20000)
                    "000001"%string (Some (midnight 0)) (Some (midnight 300))
                    "5min"%string [] eq_refl
                    ltac:(vm_compute; discriminate)));
      try (vm_compute; discriminate).
    intros w' s e. eexists. reflexivity.
  - apply (proj2 (intraday_fetch_first_try api_steady (midnight 20000)
                    "000001"%string (Some (Timestamp_of 2262 4 1))
                    (Some (Timestamp_of 2262 4 11))
                    "5min"%string [] eq_refl
                    ltac:(vm_compute; discriminate))).
    reflexivity.
Defined.

Lemma intraday_rows_are_provider_rows_witness :
  exists periods answers,
    Time.split_date_range (Time.enough_fuel (midnight 0) (midnight 300))
      (midnight 0) (midnight 300)
      (Timedelta_days (max_days_per_iteration "5min")) = Returns periods /\
    Forall2 (fun '(s, e) data =>
               exists w0,
                 pro_bar api_steady w0 (convert_symbol "000001")
                         (day_of s) (day_of e) "5min"
                 = inr data)
            periods answers /\
    Permutation
      (map normalize_high_freq
           [minute_row 0 34200 (CInt 1) (CInt 1);
            minute_row 1 34200 (CInt 1) (CInt 1);
            minute_row 209 34200 (CInt 1) (CInt 1);
            minute_row 210 34200 (CInt 1) (CInt 1)])
      (map normalize_high_freq (List.concat answers)).
Proof.
  destruct (intraday_rows_are_provider_rows api_steady (midnight 20000)
              "000001"%string (Some (midnight 0)) (Some (midnight 300))
              "5min"%string []
              [Call (ReqProBar "000001.SZ" 0 208 "5min");
               Call (ReqProBar "000001.SZ" 209 300 "5min")]
              (map normalize_high_freq
                   [minute_row 0 34200 (CInt 1) (CInt 1);
                    minute_row 1 34200 (CInt 1) (CInt 1);
                    minute_row 209 34200 (CInt 1) (CInt 1);
                    minute_row 210 34200 (CInt 1) (CInt 1)]) eq_refl)
    as (periods & answers & H1 & H2 & H3 & _).
  - vm_compute. reflexivity.
  - exists periods, answers. repeat split; assumption.
Defined.

Lemma adjust_factor_table_witness :
  exists sym s e w0 data rows,
    Some "600000"%string = Some sym /\
    Some (Timestamp_of 2020 1 1) = Some s /\
    Some (Timestamp_of 2020 12 31) = Some e /\
    adj_factor api_factors w0 (convert_symbol sym) (convert_date s)
               (convert_date e) = inr data /\
    Factors (map normalize_adjust_factor
                 [factor_row 18262 (CInt 1); factor_row 18627 (CFloat 2)])
    = Factors rows /\
    Permutation rows (map normalize_adjust_factor data) /\
    StronglySorted (fun a b => Factor.date a <= Factor.date b) rows.
Proof.
  apply (adjust_factor_table api_factors (midnight 20000)
           (Some "600000"%string)
           (Some (Timestamp_of 2020 1 1)) (Some (Timestamp_of 2020 12 31))
           None None None []
           (Factors (map normalize_adjust_factor
                         [factor_row 18262 (CInt 1);
                          factor_row 18627 (CFloat 2)]))
           [Call (ReqAdjFactor "600000.SH" 18262 18627)]).
  vm_compute. reflexivity.
Defined.

End AnswersExamples.

(** ** Splitting a span at a chunk boundary *)

Section SplitCompose.

Import Time.

(** A chain that ends exactly at [m] goes on with a chain from one day
    after [m]. *)
Lemma chain_app m e rs2 rs1 :
  forall s,
    m <= e ->
    chain s rs1 m -> (exists pre a, rs1 = pre ++ [(a, m)]) ->
    chain (m + NS_PER_DAY) rs2 e ->
    chain s (rs1 ++ rs2) e.
Proof.
  induction rs1 as [|[a b] rs1 IH]; intros s Hme Hc (pre & x & E) H2.
  - now destruct pre.
  - simpl in Hc. destruct Hc as (-> & Hab & Hbm & Hc).
    destruct pre as [|y pre].
    + injection E as -> -> ->. simpl. repeat split; try lia. exact H2.
    + injection E as _ E. simpl. repeat split; try lia.
      apply IH; [exact Hme|exact Hc|now exists pre, x|exact H2].
Qed.

(** The chain of a span by ranges of a fixed length is unique. *)
Lemma chain_regular_unique p e rs :
  forall rs' s,
    chain s rs e -> chain s rs' e ->
    Forall (fun r => snd r = Z.min e (fst r + p)) rs ->
    Forall (fun r => snd r = Z.min e (fst r + p)) rs' ->
    rs = rs'.
Proof.
  induction rs as [|[a b] rs IH]; intros [|[a' b'] rs'] s; simpl.
  - reflexivity.
  - intros ? (-> & ? & ? & _). lia.
  - intros (-> & ? & ? & _) ?. lia.
  - intros (-> & Hab & Hbe & Ht) (-> & Hab' & Hbe' & Ht') Hall Hall'.
    inversion Hall as [|? ? Hb Hr]; inversion Hall' as [|? ? Hb' Hr']; subst.
    simpl in Hb, Hb'. assert (b = b') as <- by lia.
    f_equal. now apply (IH rs' (b + NS_PER_DAY)).
Qed.

(** X14: a span can be split at a chunk boundary and the parts split on
    their own: with [period = Timedelta(days=d)], [d >= 0] (and small
    enough for the [Timedelta] to exist), [m] the end of the [k]-th full
    chunk of the span from [start], and the sums within the bounds, the
    ranges for [[start, end]] are those for [[start, m]]
    followed by those for [[m + 1 day, end]]. *)
Theorem split_at_chunk_boundary :
  forall (start_date m end_date : Timestamp) (d k : Z),
    0 <= d -> d * NS_PER_DAY <= Timestamp_max -> 1 <= k ->
    m = start_date + k * ((d + 1) * NS_PER_DAY) - NS_PER_DAY ->
    m <= end_date ->
    Timestamp_min <= start_date ->
    end_date + d * NS_PER_DAY <= Timestamp_max ->
    end_date + NS_PER_DAY <= Timestamp_max ->
    exists rs1 rs2,
      split_date_range (enough_fuel start_date m) start_date m
        (Timedelta_days d) = Returns rs1 /\
      split_date_range (enough_fuel (m + NS_PER_DAY) end_date)
        (m + NS_PER_DAY) end_date (Timedelta_days d) = Returns rs2 /\
      split_date_range (enough_fuel start_date end_date) start_date end_date
        (Timedelta_days d) = Returns (rs1 ++ rs2).
Proof.
  intros s m e d k Hd Hdb Hk Hm Hme Hlo Hhi Hhi'.
  pose proof NS_PER_DAY_pos as HD.
  set (p := d * NS_PER_DAY) in *.
  assert (Hp : 0 <= p) by (subst p; nia).
  assert (Hm' : m = s + (k - 1) * (p + NS_PER_DAY) + p) by (subst p; lia).
  assert (Hsm : s <= m) by nia.
  destruct (split_days_returns d s m Hd Hdb Hlo) as (rs1 & H1 & Ht1 & Hr1);
    [fold p; lia|lia|].
  destruct (split_days_returns d (m + NS_PER_DAY) e Hd Hdb)
    as (rs2 & H2 & Ht2 & Hr2); [lia|exact Hhi|exact Hhi'|].
  destruct (split_days_returns d s e Hd Hdb Hlo Hhi Hhi') as (rs & H & Ht & Hr).
  fold p in Hr1, Hr2, Hr.
  exists rs1, rs2. split; [exact H1|]. split; [exact H2|].
  unfold split_date_range. rewrite H. f_equal.
  destruct (chain_regular p m Hp rs1 s Hsm Ht1 Hr1) as (Hlen & Hnth).
  assert (Hfull : forall a b, In (a, b) rs1 -> a + p <= m).
  { intros a b Hin. destruct (In_nth_error _ _ Hin) as (i & Hi).
    destruct (Hnth i a b Hi) as (Ha & Hb).
    pose proof (chain_In _ _ _ _ _ Ht1 Hin) as (_ & Hab & Hbm).
    assert (Hik : Z.of_nat i <= k - 1).
    { destruct (Z_le_gt_dec (Z.of_nat i) (k - 1)) as [Hle|Hgt]; [exact Hle|].
      assert (k * (p + NS_PER_DAY) <= Z.of_nat i * (p + NS_PER_DAY))
        by (apply Z.mul_le_mono_nonneg_r; lia).
      lia. }
    assert (Z.of_nat i * (p + NS_PER_DAY) <= (k - 1) * (p + NS_PER_DAY))
      by (apply Z.mul_le_mono_nonneg_r; lia).
    lia. }
  apply (chain_regular_unique p e rs (rs1 ++ rs2) s Ht).
  - apply (chain_app m e rs2 rs1 s Hme Ht1); [|exact Ht2].
    destruct (chain_last _ _ _ Ht1 (chain_nonempty _ _ _ Ht1 Hsm))
      as (pre & a & b & E & Hb).
    exists pre, a. rewrite E. do 3 f_equal.
    assert (Hin : In (a, b) rs1) by (rewrite E; apply in_or_app; right; now left).
    rewrite Forall_forall in Hr1. pose proof (Hr1 _ Hin) as Eb. simpl in Eb.
    pose proof (Hfull _ _ Hin) as Hf.
    destruct (In_nth_error _ _ Hin) as (i & Hi).
    destruct (Hnth i a b Hi) as (Ha & _).
    assert (Hik : k - 1 <= Z.of_nat i).
    { destruct (Z_le_gt_dec (k - 1) (Z.of_nat i)) as [Hle|Hgt]; [exact Hle|].
      assert ((Z.of_nat i + 1) * (p + NS_PER_DAY) <= (k - 1) * (p + NS_PER_DAY))
        by (apply Z.mul_le_mono_nonneg_r; lia).
      lia. }
    assert ((k - 1) * (p + NS_PER_DAY) <= Z.of_nat i * (p + NS_PER_DAY))
      by (apply Z.mul_le_mono_nonneg_r; lia).
    lia.
  - exact Hr.
  - apply Forall_app. split; [|exact Hr2].
    rewrite Forall_forall in Hr1 |- *. intros [a b] Hin.
    pose proof (Hr1 _ Hin) as Eb. pose proof (Hfull _ _ Hin) as Hf.
    simpl in Eb |- *. lia.
Qed.

Lemma split_at_chunk_boundary_witness :
  exists rs1 rs2,
    split_date_range (enough_fuel (midnight 0) (midnight 208))
      (midnight 0) (midnight 208) (Timedelta_days 208) = Returns rs1 /\
    split_date_range (enough_fuel (midnight 209) (midnight 300))
      (midnight 209) (midnight 300) (Timedelta_days 208) = Returns rs2 /\
    split_date_range (enough_fuel (midnight 0) (midnight 300))
      (midnight 0) (midnight 300) (Timedelta_days 208)
    = Returns (rs1 ++ rs2).
Proof.
  apply (split_at_chunk_boundary (midnight 0) (midnight 208) (midnight 300)
           208 1); try reflexivity; vm_compute; discriminate.
Defined.

End SplitCompose.

(** ** Loggers *)

Section Loggers.

Import Log.

Variable home : string.
Variable can_make_dir : string -> bool.
Variable can_open : string -> bool.

Let LOGDIR := LOGGING_DIR home.
Let module_logger := get_module_logger home can_make_dir can_open.
Let module_logger_times := get_module_logger_times home can_make_dir can_open.

Lemma update_same reg name l : update reg name l name = Some l.
Proof. unfold update. now rewrite String.eqb_refl. Qed.

Lemma update_other reg name l other :
  other <> name -> update reg name l other = reg other.
Proof. unfold update. intros H. apply String.eqb_neq in H. now rewrite H. Qed.


(** X16: when the log file cannot be set up, every call raises, yet each
    one has already set the level and added a console handler: after [n]
    such calls the logger has [n] more console handlers, and its
    propagation is as it was. *)
Theorem module_logger_failure_leaves_console :
  forall (name : string) (lv : Z) (n : nat) (reg : registry),
    can_make_dir LOGDIR = false \/
    can_open (join LOGDIR (name ++ ".log")) = false ->
    let console := StreamHandler "stdout" (Some LOGGING_FORMAT) in
    (exists e, fst (module_logger name lv reg) = inl e) /\
    module_logger_times (S n) name lv reg name
    = Some (mkLogger lv
              (handlers (getLogger name reg)
               ++ List.concat (repeat [console] (S n)))
              (propagate (getLogger name reg))).
Proof.
  intros name lv n reg Hbad console.
  assert (Hstep : forall r,
             exists e,
               module_logger name lv r
               = (inl e,
                  update r name
                    (mkLogger lv (handlers (getLogger name r) ++ [console])
                              (propagate (getLogger name r))))).
  { intros r. unfold module_logger, get_module_logger, get_file_handler.
    fold LOGDIR.
    destruct (can_make_dir LOGDIR); [|eexists; reflexivity].
    destruct Hbad as [Hbad|Hbad]; [discriminate|].
    rewrite Hbad. eexists. reflexivity. }
  split.
  - destruct (Hstep reg) as (e & He). exists e. now rewrite He.
  - revert reg. induction n as [|n IH]; intros reg.
    + unfold module_logger_times. simpl. fold module_logger.
      destruct (Hstep reg) as (e & ->). simpl.
      apply update_same.
    + change (module_logger_times (S (S n)) name lv reg)
        with (module_logger_times (S n) name lv
                (snd (module_logger name lv reg))).
      rewrite IH. destruct (Hstep reg) as (e & ->). simpl.
      unfold getLogger. rewrite update_same. simpl.
      f_equal. f_equal. now rewrite <- app_assoc.
Qed.

End Loggers.

Section LoggersExamples.

Import Log.


Lemma module_logger_failure_leaves_console_witness :
  get_module_logger_times "/home/u" (fun _ => false) (fun _ => true) 2
    "alch.data" 20 (fun _ => None) "alch.data"%string
  = Some (mkLogger 20
            [StreamHandler "stdout" (Some LOGGING_FORMAT);
             StreamHandler "stdout" (Some LOGGING_FORMAT)] true).
Proof.
  apply (module_logger_failure_leaves_console "/home/u" (fun _ => false)
           (fun _ => true) "alch.data" 20 1 (fun _ => None)).
  left. reflexivity.
Defined.

End LoggersExamples.

(** ** Periods that go forward on the span *)

Section PeriodOnSpan.

Import Time.

(** X19: the period need only go forward, within the bounds, on the
    instants of the span.  When [start <= end], [start] is not before the
    lower bound, [end + 1 day] is not after the upper one, and adding the
    period to an instant of [[start, end]] does not raise and does not
    move it backwards, the result is a chain from [start]: each range
    ends at [min(end, range start + period)], the next one starts one day
    later, and the last one ends less than a day before [end].  It ends
    at [end] itself when [start] and [end] are dates and the period is of
    whole days; with a period of twelve hours it does not. *)
Theorem split_period_on_span :
  forall (start_date end_date : Timestamp) (period : Period),
    start_date <= end_date ->
    Timestamp_min <= start_date ->
    end_date + NS_PER_DAY <= Timestamp_max ->
    (forall t, start_date <= t <= end_date ->
               exists r, add_period t period = Some r /\ t <= r) ->
    exists rs,
      (forall fuel, (enough_fuel start_date end_date <= fuel)%nat ->
         split_date_range fuel start_date end_date period = Returns rs) /\
      chain start_date rs end_date /\
      (forall a b, In (a, b) rs ->
                   exists r, add_period a period = Some r /\
                             b = Z.min end_date r) /\
      (exists pre a b, rs = pre ++ [(a, b)] /\
                       b <= end_date < b + NS_PER_DAY) /\
      (is_midnight start_date -> is_midnight end_date -> whole_days period ->
       exists pre a, rs = pre ++ [(a, end_date)]).
Proof.
  intros s e p Hse Hlo Hhi Hfwd.
  destruct (split_loop_chain (fun _ => True) p s e)
    with (fuel := enough_fuel s e) (cur := s) as (rs & Hrs & Hc & Hends);
    [|exact Hlo|exact Hhi|exact I|lia|unfold enough_fuel; lia|].
  { intros t _ Ht. destruct (Hfwd t Ht) as (r & Hr & Hle). now exists r. }
  pose proof (chain_nonempty _ _ _ Hc Hse) as Hne.
  exists rs. split; [|split; [exact Hc|split; [|split]]].
  - intros fuel Hf. unfold split_date_range.
    rewrite (split_loop_more_fuel (enough_fuel s e)); [exact Hrs| |exact Hf].
    rewrite Hrs. discriminate.
  - intros a b Hin. rewrite Forall_forall in Hends.
    exact (Hends _ Hin).
  - exact (chain_last _ _ _ Hc Hne).
  - intros Hs He Hw. apply (chain_last_midnight s rs e Hc Hne He).
    exact (chain_midnights p s rs e Hw He Hc Hs Hends).
Qed.

Lemma split_period_on_span_witness :
  exists rs,
    split_date_range 3 (Timestamp_of 2024 1 1) (Timestamp_of 2024 1 2)
                     (Timedelta_hours 12) = Returns rs /\
    exists pre a b,
      rs = pre ++ [(a, b)] /\
      b <= Timestamp_of 2024 1 2 < b + NS_PER_DAY.
Proof.
  assert (E1 : Timestamp_of 2024 1 1 = 1704067200000000000) by reflexivity.
  assert (E2 : Timestamp_of 2024 1 2 = 1704153600000000000) by reflexivity.
  destruct (split_period_on_span (Timestamp_of 2024 1 1)
              (Timestamp_of 2024 1 2) (Timedelta_hours 12))
    as (rs & Hrs & _ & _ & Hlast & _).
  - vm_compute. discriminate.
  - vm_compute. discriminate.
  - vm_compute. discriminate.
  - intros t Ht. rewrite E1, E2 in Ht.
    exists (t + 12 * 3600000000000). split; [|lia].
    apply add_period_Some. rewrite !in_bounds_spec.
    unfold Timestamp_min, Timestamp_max. repeat split; lia.
  - exists rs. split; [apply Hrs; vm_compute; lia|exact Hlast].
Defined.

(** The range returned for a period of twelve hours. *)
Example split_by_twelve_hours :
  split_date_range 3 (Timestamp_of 2024 1 1) (Timestamp_of 2024 1 2)
                   (Timedelta_hours 12)
  = Returns [(Timestamp_of 2024 1 1,
              Timestamp_of 2024 1 1 + 12 * 3600000000000)].
Proof. reflexivity. Qed.

(** A span that starts on the last day of a month: the first range runs
    to the end of the next month. *)
Example split_from_month_end :
  split_date_range 100 (Timestamp_of 2024 1 31) (Timestamp_of 2024 3 10)
                   MonthEnd
  = Returns [(Timestamp_of 2024 1 31, Timestamp_of 2024 2 29);
             (Timestamp_of 2024 3 1, Timestamp_of 2024 3 10)].
Proof. reflexivity. Qed.

(** [MonthEnd] keeps the time of day. *)
Example month_end_keeps_time_of_day :
  add_period (Timestamp_of 2024 1 15 + 12 * 3600000000000) MonthEnd
  = Some (Timestamp_of 2024 1 31 + 12 * 3600000000000).
Proof. reflexivity. Qed.

End PeriodOnSpan.

(** ** Where the log file goes *)

Section LogPath.

Import Log.

Lemma string_app_assoc (a b c : string) :
  ((a ++ b) ++ c)%string = (a ++ (b ++ c))%string.
Proof. induction a as [|x a IH]; simpl; [reflexivity|now rewrite IH]. Qed.

Lemma ends_with_sep_cons c s :
  s <> ""%string -> ends_with_sep (String c s) = ends_with_sep s.
Proof.
  intros Hs. unfold ends_with_sep.
  destruct s as [|x s]; [congruence|]. reflexivity.
Qed.

Lemma ends_with_sep_app a b :
  b <> ""%string -> ends_with_sep (a ++ b) = ends_with_sep b.
Proof.
  intros Hb. induction a as [|c a IH]; [reflexivity|].
  simpl append. rewrite ends_with_sep_cons; [exact IH|].
  destruct a; simpl; [exact Hb|discriminate].
Qed.

Lemma join_relative a b :
  a <> ""%string -> ends_with_sep a = false -> prefix "/" b = false ->
  join a b = (a ++ "/" ++ b)%string.
Proof.
  intros Ha Hsep Hb. unfold join. rewrite Hb, Hsep.
  apply String.eqb_neq in Ha. now rewrite Ha.
Qed.

Lemma prefix_sep_app (name ext : string) :
  name <> ""%string -> prefix "/" (name ++ ext) = prefix "/" name.
Proof.
  destruct name as [|c name]; [congruence|]. intros _.
  cbn [append prefix]. destruct (ascii_dec "/" c); [|reflexivity].
  now destruct name, ext.
Qed.

(** X20: for a home directory that is not empty and does not end in a
    slash, the log file of a name that does not start with a slash is
    [home/.alch/logs/name.log]; a name that starts with a slash takes the
    file out of the log directory, to [name.log]. *)
Theorem log_file_location :
  forall (home name : string) (can_make_dir can_open : string -> bool),
    home <> ""%string -> ends_with_sep home = false ->
    can_make_dir (LOGGING_DIR home) = true ->
    (forall p, can_open p = true) ->
    let file := if prefix "/" name then (name ++ ".log")%string
                else (home ++ "/.alch/logs/" ++ name ++ ".log")%string in
    LOGGING_DIR home = (home ++ "/.alch/logs")%string /\
    get_file_handler home can_make_dir can_open name
    = inr (TimedRotatingFileHandler file "midnight" (Some LOGGING_FORMAT)).
Proof.
  intros home name mk op Hhome Hsep Hmk Hop file.
  assert (Hdir : LOGGING_DIR home = (home ++ "/.alch/logs")%string).
  { unfold LOGGING_DIR.
    rewrite (join_relative home ".alch" Hhome Hsep eq_refl).
    rewrite join_relative; [now rewrite string_app_assoc| | |reflexivity].
    - intros H. apply (f_equal String.length) in H.
      rewrite string_length_append in H. simpl in H. lia.
    - now rewrite ends_with_sep_app by discriminate. }
  split; [exact Hdir|].
  unfold get_file_handler. rewrite Hmk, Hop. do 2 f_equal.
  subst file. destruct (prefix "/" name) eqn:Hp.
  - unfold join. rewrite prefix_sep_app, Hp; [reflexivity|].
    intros ->. discriminate.
  - rewrite Hdir. rewrite join_relative.
    + now rewrite string_app_assoc.
    + intros H. apply (f_equal String.length) in H.
      rewrite string_length_append in H. simpl in H. lia.
    + now rewrite ends_with_sep_app by discriminate.
    + destruct name as [|c name]; [reflexivity|].
      rewrite prefix_sep_app by discriminate. exact Hp.
Qed.

Lemma log_file_location_witness :
  get_file_handler "/home/u" (fun _ => true) (fun _ => true) "alch.data"
  = inr (TimedRotatingFileHandler "/home/u/.alch/logs/alch.data.log"
           "midnight" (Some LOGGING_FORMAT)).
Proof.
  apply (log_file_location "/home/u" "alch.data" (fun _ => true)
           (fun _ => true)); try reflexivity. discriminate.
Defined.

End LogPath.
